(** * Blockbench MCP plugin: project and export tools

    A shallow embedding of [src/server/tools/project.ts] and of the export
    tools ([export_geo_json]) together with the properties of the format
    resolver, the directory scanner, the batch opener and the project
    switching tools.

    JavaScript strings are modelled as [string], holding the UTF-8 encoding
    of the text, arrays as [list], the value returned by [JSON.parse] as the inductive [json], and
    the Blockbench host (globals [Project], [ModelProject.all], [Codecs],
    [Formats], [newProject], the [fs] module) as a type class over an
    abstract world state threaded through a state-and-exception monad. *)

From Stdlib Require Import String Ascii List ZArith Lia Bool Arith.
From Stdlib Require Import Floats.SpecFloat.
Import ListNotations.

Local Open Scope string_scope.
Set Warnings "-register-all".

(* ================================================================== *)
(** * The JavaScript runtime pieces the tools rely on *)
(* ================================================================== *)

Module JS.

(** ** Strings *)

(** [s.endsWith(suffix)]: some tail of [s] is [suffix]. *)
Fixpoint endsWith (s suffix : string) : bool :=
  String.eqb s suffix
  || match s with
     | EmptyString => false
     | String _ r => endsWith r suffix
     end.

(** [s.slice(n)] for [0 <= n] *)
Fixpoint drop (n : nat) (s : string) : string :=
  match n, s with
  | O, _ => s
  | S k, EmptyString => EmptyString
  | S k, String _ r => drop k r
  end.

(** [s.replace(pat, rep)] with a string pattern: only the FIRST occurrence
    of [pat] is replaced.  ([rep] is taken literally; the replacement used
    by the tools contains no [$] pattern.) *)
Fixpoint replace (s pat rep : string) : string :=
  if prefix pat s then rep ++ drop (String.length pat) s
  else match s with
       | EmptyString => EmptyString
       | String c r => String c (replace r pat rep)
       end.

Definition lower_ascii (c : ascii) : ascii :=
  let n := nat_of_ascii c in
  if ((65 <=? n) && (n <=? 90))%nat then ascii_of_nat (n + 32) else c.

(** [s.toLowerCase()] on ASCII code units *)
Fixpoint toLowerCase (s : string) : string :=
  match s with
  | EmptyString => EmptyString
  | String c r => String (lower_ascii c) (toLowerCase r)
  end.

(** [arr.includes(x)] on an array of strings *)
Definition includes (arr : list string) (x : string) : bool :=
  existsb (String.eqb x) arr.

(** [arr.push(x)] *)
Definition push {A : Type} (arr : list A) (x : A) : list A := (arr ++ [x])%list.

(** [arr.join(sep)] *)
Fixpoint join (sep : string) (arr : list string) : string :=
  match arr with
  | [] => ""
  | [x] => x
  | x :: rest => x ++ sep ++ join sep rest
  end.

(** ** Numbers and their decimal notation *)

Definition digit_char (d : nat) : ascii := ascii_of_nat (48 + d).

Definition digit_of (c : ascii) : option Z :=
  let n := nat_of_ascii c in
  if ((48 <=? n) && (n <=? 57))%nat then Some (Z.of_nat (n - 48)) else None.

Fixpoint digits_aux (fuel n : nat) (acc : string) : string :=
  let acc' := String (digit_char (n mod 10)) acc in
  match fuel with
  | O => acc'
  | S f => if (n / 10 =? 0)%nat then acc' else digits_aux f (n / 10) acc'
  end.

(** [String(n)] / [`${n}`] for an array index or length [n] *)
Definition string_of_nat (n : nat) : string := digits_aux n n "".

(** Strings hold the UTF-8 encoding of the JavaScript text: a character
    outside ASCII is the two to four bytes of its encoding (U+00A0 is the
    bytes C2 A0).  [well_formed s] tells whether [s] is such an encoding. *)
Definition continuation (c : ascii) : bool :=
  let n := nat_of_ascii c in ((128 <=? n) && (n <=? 191))%nat.

Fixpoint well_formed (s : string) : bool :=
  match s with
  | EmptyString => true
  | String c1 r1 =>
      let n1 := nat_of_ascii c1 in
      if (n1 <? 128)%nat then well_formed r1
      else if ((194 <=? n1) && (n1 <=? 223))%nat then
        match r1 with
        | String c2 r2 => continuation c2 && well_formed r2
        | _ => false
        end
      else if ((224 <=? n1) && (n1 <=? 239))%nat then
        match r1 with
        | String c2 (String c3 r3) =>
            let n2 := nat_of_ascii c2 in
            continuation c2 && continuation c3
            && (negb (n1 =? 224) || (160 <=? n2))%nat
            && (negb (n1 =? 237) || (n2 <=? 159))%nat
            && well_formed r3
        | _ => false
        end
      else if ((240 <=? n1) && (n1 <=? 244))%nat then
        match r1 with
        | String c2 (String c3 (String c4 r4)) =>
            let n2 := nat_of_ascii c2 in
            continuation c2 && continuation c3 && continuation c4
            && (negb (n1 =? 240) || (144 <=? n2))%nat
            && (negb (n1 =? 244) || (n2 <=? 143))%nat
            && well_formed r4
        | _ => false
        end
      else false
  end.

(** The one-byte members of StrWhiteSpaceChar: TAB, LF, VT, FF, CR, SP. *)
Definition ascii_space (c : ascii) : bool :=
  let n := nat_of_ascii c in
  (((9 <=? n) && (n <=? 13)) || (n =? 32))%nat.

(** U+00A0 (NBSP), as C2 A0. *)
Definition space2 (c1 c2 : ascii) : bool :=
  ((nat_of_ascii c1 =? 194) && (nat_of_ascii c2 =? 160))%nat.

(** The three-byte members of StrWhiteSpaceChar: U+1680 (E1 9A 80),
    U+2000 to U+200A (E2 80 80 to E2 80 8A), the line terminators U+2028 and
    U+2029 (E2 80 A8, E2 80 A9), U+202F (E2 80 AF), U+205F (E2 81 9F),
    U+3000 (E3 80 80) and U+FEFF (EF BB BF). *)
Definition space3 (c1 c2 c3 : ascii) : bool :=
  let n1 := nat_of_ascii c1 in
  let n2 := nat_of_ascii c2 in
  let n3 := nat_of_ascii c3 in
  (((n1 =? 225) && (n2 =? 154) && (n3 =? 128))
   || ((n1 =? 226) && (n2 =? 128)
       && (((128 <=? n3) && (n3 <=? 138)) || (n3 =? 168) || (n3 =? 169) || (n3 =? 175)))
   || ((n1 =? 226) && (n2 =? 129) && (n3 =? 159))
   || ((n1 =? 227) && (n2 =? 128) && (n3 =? 128))
   || ((n1 =? 239) && (n2 =? 187) && (n3 =? 191)))%nat.

(** The leading white space [parseInt] skips: every StrWhiteSpaceChar
    (WhiteSpace, which includes the Unicode space separators, and
    LineTerminator). *)
Fixpoint skip_spaces (s : string) : string :=
  match s with
  | EmptyString => s
  | String c1 r1 =>
      if ascii_space c1 then skip_spaces r1
      else if (nat_of_ascii c1 =? 194)%nat then
        match r1 with
        | String c2 r2 => if space2 c1 c2 then skip_spaces r2 else s
        | _ => s
        end
      else if (225 <=? nat_of_ascii c1)%nat then
        match r1 with
        | String c2 (String c3 r3) => if space3 c1 c2 c3 then skip_spaces r3 else s
        | _ => s
        end
      else s
  end.

(** Longest prefix of decimal digits, most significant first; [None] while
    no digit has been read. *)
Fixpoint read_digits (s : string) (acc : option Z) : option Z :=
  match s with
  | EmptyString => acc
  | String c r =>
      match digit_of c with
      | Some d =>
          read_digits r (Some (10 * match acc with Some a => a | None => 0 end + d)%Z)
      | None => acc
      end
  end.

(** [parseInt(s, 10)]; [None] is [NaN].  The result is the exact integer:
    the runtime rounds it to a double, which does not change how it
    compares with an array length. *)
Definition parseInt (s : string) : option Z :=
  match skip_spaces s with
  | String "-" r => option_map Z.opp (read_digits r None)
  | String "+" r => read_digits r None
  | t => read_digits t None
  end.

(** ** Values returned by [JSON.parse] *)

Inductive json : Type :=
| JNull
| JBool (b : bool)
| JNumber (x : spec_float)
| JString (s : string)
| JArray (items : list json)
| JObject (members : list (string * json)).

(** ToBoolean, on a value that may be [undefined] ([None]). *)
Definition truthy (v : option json) : bool :=
  match v with
  | None => false
  | Some JNull => false
  | Some (JBool b) => b
  | Some (JNumber (S754_zero _)) => false
  | Some (JNumber S754_nan) => false
  | Some (JNumber _) => true
  | Some (JString s) => negb (String.eqb s "")
  | Some (JArray _) => true
  | Some (JObject _) => true
  end.

Fixpoint assoc {A : Type} (k : string) (members : list (string * A)) : option A :=
  match members with
  | [] => None
  | (k', v) :: rest => if String.eqb k k' then Some v else assoc k rest
  end.

(** A thrown exception, identified by its message. *)
Inductive result (A : Type) : Type :=
| Ok (a : A)
| Throw (msg : string).
Arguments Ok {A} a.
Arguments Throw {A} msg.

Definition TypeError_null (k : string) : string :=
  "Cannot read properties of null (reading '" ++ k ++ "')".

(** [v.k] / [v[k]] for the keys the tools read (none of which lives on a
    prototype): reading from [null] throws, every other non-object value
    gives [undefined]. *)
Definition get (v : json) (k : string) : result (option json) :=
  match v with
  | JNull => Throw (TypeError_null k)
  | JObject members => Ok (assoc k members)
  | _ => Ok None
  end.

(** [v?.k] on a value that may be [undefined] *)
Definition get_opt (v : option json) (k : string) : option json :=
  match v with
  | None | Some JNull => None
  | Some (JObject members) => assoc k members
  | Some _ => None
  end.

(** The value [v] is an object with an own key [k]. *)
Definition has_key (v : json) (k : string) : bool :=
  match v with
  | JObject members => match assoc k members with Some _ => true | None => false end
  | _ => false
  end.

End JS.

(* ================================================================== *)
(** * Node's [path] module (POSIX flavour) *)
(* ================================================================== *)

Module NodePath.

Definition slash : ascii := "/"%char.
Definition dot : ascii := "."%char.

(** Characters of a string, last first. *)
Definition rev_chars (s : string) : list ascii := rev (list_ascii_of_string s).

Fixpoint drop_slashes (l : list ascii) : list ascii :=
  match l with
  | c :: r => if Ascii.eqb c slash then drop_slashes r else l
  | [] => []
  end.

(** The reversed last portion of a reversed path: up to the first slash. *)
Fixpoint take_portion (l : list ascii) : list ascii :=
  match l with
  | c :: r => if Ascii.eqb c slash then [] else c :: take_portion r
  | [] => []
  end.

(** Last portion of the path, trailing slashes ignored, last character
    first. *)
Definition last_portion_rev (p : string) : list ascii :=
  take_portion (drop_slashes (rev_chars p)).

(** [path.basename(p)] *)
Definition basename (p : string) : string :=
  string_of_list_ascii (rev (last_portion_rev p)).

(** In a reversed portion, the characters after the last dot (reversed) and
    what is left of that dot (reversed); [None] when there is no dot. *)
Fixpoint split_last_dot (l : list ascii) : option (list ascii * list ascii) :=
  match l with
  | [] => None
  | c :: r =>
      if Ascii.eqb c dot then Some ([], r)
      else match split_last_dot r with
           | Some (after, before) => Some (c :: after, before)
           | None => None
           end
  end.

(** [path.extname(p)]: from the last dot of the last portion to its end;
    empty when there is no dot, when the only dot is the first character
    of the portion, or when the portion is [..]. *)
Definition extname (p : string) : string :=
  match split_last_dot (last_portion_rev p) with
  | None => ""
  | Some (after, before) =>
      match before, after with
      | [], _ => ""
      | [c], [] => if Ascii.eqb c dot then ""
                   else string_of_list_ascii (dot :: rev after)
      | _, _ => string_of_list_ascii (dot :: rev after)
      end
  end.

End NodePath.

(* ================================================================== *)
(** * Export tools: the target path of [export_geo_json] *)
(* ================================================================== *)

Module ExportTools.
Import JS.

(** The [filePath] computed by [export_geo_json.execute]:
    [path.endsWith(".geo.json") ? path
     : path.endsWith(".json") ? path.replace(".json", ".geo.json")
     : `${path}.geo.json`] *)
Definition geo_json_path (path : string) : string :=
  if endsWith path ".geo.json" then path
  else if endsWith path ".json" then replace path ".json" ".geo.json"
  else path ++ ".geo.json".

End ExportTools.

(* ================================================================== *)
(** * Format resolution (the [if]/[else if] chain of the two openers) *)
(* ================================================================== *)

Module Resolver.
Import JS NodePath.

(** Entries of the host catalog [Codecs] the tools name. *)
Inductive Codec : Type :=
| Codecs_project
| Codecs_bedrock
| Codecs_java_block
| Codecs_optifine_entity.

(** Entries of the host catalog [Formats] the tools name.  [Formats_at tag]
    stands for the expression [Formats[tag] ?? Formats.free], where [tag]
    is the value of [parsed.meta?.model_format] ([None] is [undefined]). *)
Inductive ModelFormat : Type :=
| Formats_at (tag : option json)
| Formats_free
| Formats_bedrock
| Formats_java_block
| Formats_optifine_entity.

Record FormatBinding : Type := Binding { codec : Codec; format : ModelFormat }.

Definition native_binding (tag : option json) : FormatBinding :=
  Binding Codecs_project (Formats_at tag).
Definition bedrock_binding : FormatBinding := Binding Codecs_bedrock Formats_bedrock.
Definition java_block_binding : FormatBinding :=
  Binding Codecs_java_block Formats_java_block.
Definition optifine_binding : FormatBinding :=
  Binding Codecs_optifine_entity Formats_optifine_entity.
Definition generic_binding : FormatBinding := Binding Codecs_project Formats_free.

Definition rbind {A B : Type} (r : result A) (k : A -> result B) : result B :=
  match r with
  | Ok a => k a
  | Throw msg => Throw msg
  end.

Local Notation "x <- r ;; k" := (rbind r (fun x => k))
  (at level 61, r at next level, right associativity).

(** [parsed.meta?.model_format] *)
Definition model_format_tag (parsed : json) : result (option json) :=
  meta <- get parsed "meta" ;;
  Ok (get_opt meta "model_format").

(** [parsed["minecraft:geometry"] || parsed.format_version], as a condition *)
Definition geometry_marker (parsed : json) : result bool :=
  g <- get parsed "minecraft:geometry" ;;
  if truthy g then Ok true
  else v <- get parsed "format_version" ;; Ok (truthy v).

(** [parsed.elements || parsed.textures], as a condition *)
Definition block_model_marker (parsed : json) : result bool :=
  e <- get parsed "elements" ;;
  if truthy e then Ok true
  else t <- get parsed "textures" ;; Ok (truthy t).

(** The chain of [open_project.execute] (project.ts, lines 63 and 77-111).
    [optifine] tells whether [Codecs.optifine_entity] is truthy in the
    host. *)
Definition resolve_open_project (optifine : bool) (path : string) (parsed : json)
  : result FormatBinding :=
  let ext := toLowerCase (extname path) in
  native <- (if String.eqb ext ".bbmodel" then Ok true
             else tag <- model_format_tag parsed ;; Ok (truthy tag)) ;;
  if native then
    tag <- model_format_tag parsed ;; Ok (native_binding tag)
  else
    geo <- (if String.eqb ext ".geo.json" then Ok true
            else geometry_marker parsed) ;;
    if geo then Ok bedrock_binding
    else
      java <- (if String.eqb ext ".json" then block_model_marker parsed
               else Ok false) ;;
      if java then Ok java_block_binding
      else if String.eqb ext ".jem" || String.eqb ext ".jpm" then
        if optifine then Ok optifine_binding
        else Throw "OptiFine codec is not available."
      else Ok generic_binding.

(** Outcome of the chain inside the batch loop: a binding, or the
    [errors.push(...); continue] of the OptiFine branch. *)
Inductive folder_resolution : Type :=
| Resolved (b : FormatBinding)
| OptifineMissing.

(** The chain of [open_projects_from_folder.execute] (project.ts, lines
    200 and 215-250). *)
Definition resolve_from_folder (optifine : bool) (filePath : string) (parsed : json)
  : result folder_resolution :=
  let ext := toLowerCase (extname filePath) in
  native <- (if endsWith filePath ".bbmodel" then Ok true
             else tag <- model_format_tag parsed ;; Ok (truthy tag)) ;;
  if native then
    tag <- model_format_tag parsed ;; Ok (Resolved (native_binding tag))
  else
    geo <- (if endsWith filePath ".geo.json" then Ok true
            else geometry_marker parsed) ;;
    if geo then Ok (Resolved bedrock_binding)
    else
      java <- (if String.eqb ext ".json" then block_model_marker parsed
               else Ok false) ;;
      if java then Ok (Resolved java_block_binding)
      else if String.eqb ext ".jem" || String.eqb ext ".jpm" then
        if optifine then Ok (Resolved optifine_binding)
        else Ok OptifineMissing
      else Ok (Resolved generic_binding).

End Resolver.

(* ================================================================== *)
(** * Directory scanner ([scanDirectory] of [open_projects_from_folder]) *)
(* ================================================================== *)

Module Scanner.
Import JS NodePath.

(** What [fs.readdirSync(dir, { withFileTypes: true })] shows of a
    directory tree: each entry has a name and is a regular file
    ([isFile()]), a directory ([isDirectory()]) with its own entries, or
    something else (a symbolic link, a socket, ...), for which both tests
    are false. *)
Inductive FsNode : Type :=
| File
| Dir (entries : list (string * FsNode))
| Other.

(** [const PROJECT_EXTENSIONS] *)
Definition PROJECT_EXTENSIONS : list string :=
  [".bbmodel"; ".json"; ".geo.json"; ".mcmodel"; ".jem"; ".jpm"].

Section Scan.
(** [pathModule.join] *)
Variable path_join : string -> string -> string.
Variable recursive : bool.
Variable allowedExtensions : list string.

(** The test that guards the two [projectFiles.push(fullPath)]. *)
Definition accepted (name : string) : bool :=
  let ext := toLowerCase (extname name) in
  if endsWith name ".geo.json" && includes allowedExtensions ".geo.json" then true
  else includes allowedExtensions ext.

(** One iteration of the [for (const entry of entries)] loop;
    [projectFiles] is the array the closure appends to. *)
Fixpoint scanEntry (dir name : string) (entry : FsNode) (projectFiles : list string)
  {struct entry} : list string :=
  let fullPath := path_join dir name in
  match entry with
  | Dir entries =>
      if recursive then
        fold_left (fun acc e => scanEntry fullPath (fst e) (snd e) acc)
                  entries projectFiles
      else projectFiles
  | File => if accepted name then push projectFiles fullPath else projectFiles
  | Other => projectFiles
  end.

Definition scanDirectory (dir : string) (entries : list (string * FsNode))
           (projectFiles : list string) : list string :=
  fold_left (fun acc e => scanEntry dir (fst e) (snd e) acc) entries projectFiles.

(** Where the regular files of a tree are: [located dir entries name
    full] when a regular file called [name] sits in the directory [dir]
    with listing [entries], or below it through real directories when
    [recursive] is set, and [full] is its path as the loop joins it. *)
Inductive located : string -> list (string * FsNode) -> string -> string -> Prop :=
| located_here dir entries name :
    In (name, File) entries ->
    located dir entries name (path_join dir name)
| located_below dir entries sub subentries name full :
    recursive = true ->
    In (sub, Dir subentries) entries ->
    located (path_join dir sub) subentries name full ->
    located dir entries name full.

End Scan.

End Scanner.

(* ================================================================== *)
(** * The host application and the monad the handlers run in *)
(* ================================================================== *)

Module Host.
Import JS Resolver Scanner.

(** A handler runs against the host's world: it may change it, and it
    either returns or throws; what it changed before throwing stays. *)
Definition M (W A : Type) : Type := W -> result A * W.

Definition ret {W A : Type} (a : A) : M W A := fun w => (Ok a, w).

Definition throw {W A : Type} (msg : string) : M W A := fun w => (Throw msg, w).

Definition bind {W A B : Type} (m : M W A) (k : A -> M W B) : M W B :=
  fun w => match m w with
           | (Ok a, w') => k a w'
           | (Throw msg, w') => (Throw msg, w')
           end.

(** [try { body } catch (err) { handler(err.message) }] *)
Definition try_catch {W A : Type} (body : M W A) (handler : string -> M W A) : M W A :=
  fun w => match body w with
           | (Ok a, w') => (Ok a, w')
           | (Throw msg, w') => handler msg w'
           end.

(** Reading a global of the host. *)
Definition read {W A : Type} (f : W -> A) : M W A := fun w => (Ok (f w), w).

(** An expression that may throw but changes nothing. *)
Definition eval {W A : Type} (f : W -> result A) : M W A := fun w => (f w, w).

(** A [ModelProject] object, by reference. *)
Definition ModelProject : Type := nat.

(** The globals and modules the handlers call. *)
Class API (W : Type) : Type := {
  (** [fs]: what is at a path ([None]: [existsSync] is false) *)
  fs_lookup : string -> W -> option FsNode;
  (** [fs.readFileSync(path, "utf8")] *)
  fs_readFileSync : string -> W -> result string;
  (** [JSON.parse]; [None] when it throws *)
  JSON_parse : string -> option json;
  (** truthiness of [Codecs.optifine_entity] *)
  has_optifine_entity : W -> bool;
  (** [newProject(format)] *)
  newProject : ModelFormat -> M W unit;
  (** [codec.parse(parsed, path)] *)
  codec_parse : Codec -> json -> string -> M W unit;
  (** [ModelProject.all] *)
  ModelProject_all : W -> list ModelProject;
  (** [Project], the active project if any *)
  Project : W -> option ModelProject;
  (** fields [uuid], [name] and [format?.id] of a project *)
  project_uuid : ModelProject -> W -> string;
  project_name : ModelProject -> W -> string;
  project_format_id : ModelProject -> W -> option string;
  (** [project.select()] and [project.close(force)] *)
  select : ModelProject -> M W unit;
  close : ModelProject -> bool -> M W unit
}.

End Host.

(* ================================================================== *)
(** * The project tools *)
(* ================================================================== *)

Module Tools.
Import JS NodePath Resolver Scanner Host.

Notation "x <- m ;; k" := (bind m (fun x => k))
  (at level 61, m at next level, right associativity).
Notation "m ;;; k" := (bind m (fun _ => k))
  (at level 61, right associativity).

Definition nl : string := String (ascii_of_nat 10) "".

(** The marker of the active project in the listing: a right arrow
    (U+2192, as UTF-8) and a space. *)
Definition active_marker : string :=
  String (ascii_of_nat 226) (String (ascii_of_nat 134) (String (ascii_of_nat 146) " ")).

(** [x || "Untitled"] *)
Definition or_untitled (name : string) : string :=
  if String.eqb name "" then "Untitled" else name.

Section Handlers.
Context {W : Type} `{API W}.

(** [Project?.uuid] inside a template literal *)
Definition active_uuid (w : W) : string :=
  match Project w with
  | Some p => project_uuid p w
  | None => "undefined"
  end.

(** ** [open_project] *)
Definition open_project (path : string) : M W string :=
  found <- read (fs_lookup path) ;;
  match found with
  | None => throw ("File not found: " ++ path)
  | Some _ =>
      content <- eval (fs_readFileSync path) ;;
      match JSON_parse content with
      | None => throw ("Failed to parse file as JSON: " ++ path)
      | Some parsed =>
          optifine <- read has_optifine_entity ;;
          binding <- eval (fun _ => resolve_open_project optifine path parsed) ;;
          newProject (format binding) ;;;
          codec_parse (codec binding) parsed path ;;;
          uuid <- read active_uuid ;;
          ret ("Opened project: " ++ path ++ " (UUID: " ++ uuid ++ ")")
      end
  end.

(** ** [open_projects_from_folder] *)

(** Body of the [for (const filePath of projectFiles)] loop; the pair is
    the two arrays [results] and [errors]. *)
Definition open_file (filePath : string) (arrays : list string * list string)
  : M W (list string * list string) :=
  let '(results, errors) := arrays in
  try_catch
    (content <- eval (fs_readFileSync filePath) ;;
     match JSON_parse content with
     | None => ret (results, push errors ("Failed to parse: " ++ filePath))
     | Some parsed =>
         optifine <- read has_optifine_entity ;;
         r <- eval (fun _ => resolve_from_folder optifine filePath parsed) ;;
         match r with
         | OptifineMissing =>
             ret (results, push errors ("OptiFine codec not available for: " ++ filePath))
         | Resolved binding =>
             newProject (format binding) ;;;
             codec_parse (codec binding) parsed filePath ;;;
             ret (push results (basename filePath), errors)
         end
     end)
    (fun msg =>
       ret (results, push errors ("Error opening " ++ filePath ++ ": " ++ msg))).

Fixpoint open_files (projectFiles : list string) (arrays : list string * list string)
  : M W (list string * list string) :=
  match projectFiles with
  | [] => ret arrays
  | filePath :: rest =>
      arrays' <- open_file filePath arrays ;;
      open_files rest arrays'
  end.

(** The [output] string built after the loop. *)
Definition report (folder : string) (results errors : list string) : string :=
  let output :=
    "Opened " ++ string_of_nat (List.length results) ++ " project(s) from: "
    ++ folder ++ nl in
  let output :=
    match results with
    | [] => output
    | _ => output ++ nl ++ "Opened files:" ++ nl
           ++ join nl (map (fun f => "  - " ++ f) results)
    end in
  match errors with
  | [] => output
  | _ => output ++ nl ++ nl ++ "Errors (" ++ string_of_nat (List.length errors)
         ++ "):" ++ nl ++ join nl (map (fun e => "  - " ++ e) errors)
  end.

Definition open_projects_from_folder
           (path_join : string -> string -> string)
           (folder : string) (recursive : bool) (extensions : option (list string))
  : M W string :=
  found <- read (fs_lookup folder) ;;
  match found with
  | None => throw ("Folder not found: " ++ folder)
  | Some (Dir entries) =>
      let allowedExtensions :=
        match extensions with Some l => l | None => PROJECT_EXTENSIONS end in
      let projectFiles :=
        scanDirectory path_join recursive allowedExtensions folder entries [] in
      match projectFiles with
      | [] => ret ("No project files found in: " ++ folder)
      | _ =>
          arrays <- open_files projectFiles ([], []) ;;
          ret (report folder (fst arrays) (snd arrays))
      end
  | Some _ => throw ("Path is not a directory: " ++ folder)
  end.

(** ** [list_open_projects] *)

Definition project_line (w : W) (index : nat) (proj : ModelProject) : string :=
  let isActive :=
    match Project w with Some a => Nat.eqb proj a | None => false end in
  string_of_nat (index + 1) ++ ". "
  ++ (if isActive then active_marker else "  ")
  ++ or_untitled (project_name proj w)
  ++ " (UUID: " ++ project_uuid proj w ++ ", Format: "
  ++ match project_format_id proj w with Some id => id | None => "unknown" end
  ++ ")".

(** [projects.map((proj, index) => ...)] *)
Fixpoint map_indexed {A B : Type} (f : nat -> A -> B) (index : nat) (l : list A)
  : list B :=
  match l with
  | [] => []
  | x :: r => f index x :: map_indexed f (S index) r
  end.

Definition projectList (w : W) : list string :=
  map_indexed (project_line w) 0 (ModelProject_all w).

Definition list_open_projects : M W string :=
  fun w =>
    let projects := ModelProject_all w in
    match projects with
    | [] => (Ok "No projects are currently open.", w)
    | _ => (Ok ("# Open Projects (" ++ string_of_nat (List.length projects) ++ ")"
                ++ nl ++ nl ++ join nl (projectList w)), w)
    end.

(** ** [switch_project] *)

(** [projects.find((p) => p.uuid === identifier)] *)
Definition find_by_uuid (w : W) (identifier : string) : option ModelProject :=
  find (fun p => String.eqb (project_uuid p w) identifier) (ModelProject_all w).

(** The [targetProject] of [switch_project]: the index is tried first. *)
Definition switch_target (w : W) (identifier : string) : option ModelProject :=
  let projects := ModelProject_all w in
  match parseInt identifier with
  | Some index =>
      if ((1 <=? index) && (index <=? Z.of_nat (List.length projects)))%Z
      then nth_error projects (Z.to_nat (index - 1))
      else find_by_uuid w identifier
  | None => find_by_uuid w identifier
  end.

Definition switch_project (identifier : string) : M W string :=
  projects <- read ModelProject_all ;;
  match projects with
  | [] => throw "No projects are currently open."
  | _ =>
      target <- read (fun w => switch_target w identifier) ;;
      match target with
      | None =>
          throw ("Project not found: " ++ identifier
                 ++ ". Use 'list_open_projects' to see available projects.")
      | Some targetProject =>
          select targetProject ;;;
          name <- read (project_name targetProject) ;;
          uuid <- read (project_uuid targetProject) ;;
          ret ("Switched to project: " ++ or_untitled name ++ " (UUID: " ++ uuid ++ ")")
      end
  end.

(** ** [close_project]; [uuid = None] when the argument is omitted *)
Definition close_project (uuid : option string) (force : bool) : M W string :=
  projects <- read ModelProject_all ;;
  match projects with
  | [] => throw "No projects are currently open."
  | _ =>
      let given :=
        match uuid with
        | Some u => if String.eqb u "" then None else Some u
        | None => None
        end in
      targetProject <-
        match given with
        | Some u =>
            found <- read (fun w => find_by_uuid w u) ;;
            match found with
            | Some p => ret p
            | None => throw ("Project not found: " ++ u)
            end
        | None =>
            active <- read Project ;;
            match active with
            | Some p => ret p
            | None => throw "No active project to close."
            end
        end ;;
      projectName <- read (fun w => or_untitled (project_name targetProject w)) ;;
      projectUuid <- read (project_uuid targetProject) ;;
      close targetProject force ;;;
      ret ("Closed project: " ++ projectName ++ " (UUID: " ++ projectUuid ++ ")")
  end.

End Handlers.

(** ** Accounting of a batch: one outcome per file, a success with the
    name pushed to [results] or a failure with the message pushed to
    [errors]. *)
Definition outcome : Type := (string + string)%type.

Fixpoint successes (l : list outcome) : list string :=
  match l with
  | [] => []
  | inl name :: r => name :: successes r
  | inr _ :: r => successes r
  end.

Fixpoint failures (l : list outcome) : list string :=
  match l with
  | [] => []
  | inl _ :: r => failures r
  | inr e :: r => e :: failures r
  end.

(** The outcome [o] is one the loop records for [filePath]: its base name,
    or one of the three messages, each of which carries the path. *)
Definition outcome_of (filePath : string) (o : outcome) : Prop :=
  match o with
  | inl name => name = basename filePath
  | inr e =>
      e = "Failed to parse: " ++ filePath
      \/ e = "OptiFine codec not available for: " ++ filePath
      \/ exists msg, e = "Error opening " ++ filePath ++ ": " ++ msg
  end.

End Tools.

(* ================================================================== *)
(** * A small host to run the handlers on *)
(* ================================================================== *)

Module FakeHost.
Import JS NodePath Resolver Scanner Host.

Record project : Type := { p_uuid : string; p_name : string; p_format : option string }.

Record world : Type := {
  files : list (string * string);                   (* regular files and their text *)
  folders : list (string * list (string * FsNode)); (* directories and their trees *)
  optifine : bool;                                  (* is Codecs.optifine_entity there *)
  store : list project;                             (* the project objects, by reference *)
  opened : list ModelProject;                       (* ModelProject.all *)
  active : option ModelProject                      (* Project *)
}.

Definition dq : string := String (ascii_of_nat 34) "".

(** The documents this host's [JSON.parse] knows; any other text is
    rejected. *)
Definition documents : list (string * json) :=
  [ ("{}", JObject []);
    ("[]", JArray []);
    ("null", JNull);
    ("{" ++ dq ++ "elements" ++ dq ++ ":[]}", JObject [("elements", JArray [])]);
    ("{" ++ dq ++ "format_version" ++ dq ++ ":" ++ dq ++ "1.12.0" ++ dq ++ "}",
     JObject [("format_version", JString "1.12.0")]) ].

Definition format_id (f : ModelFormat) : option string :=
  match f with
  | Formats_at (Some (JString s)) => Some s
  | Formats_at _ => Some "free"
  | Formats_free => Some "free"
  | Formats_bedrock => Some "bedrock"
  | Formats_java_block => Some "java_block"
  | Formats_optifine_entity => Some "optifine_entity"
  end.

Definition with_projects (w : world) (st : list project) (op : list ModelProject)
           (act : option ModelProject) : world :=
  {| files := files w; folders := folders w; optifine := optifine w;
     store := st; opened := op; active := act |}.

Definition field {A : Type} (f : project -> A) (d : A) (p : ModelProject) (w : world) : A :=
  match nth_error (store w) p with
  | Some x => f x
  | None => d
  end.

#[global] Instance fake_api : API world := {|
  fs_lookup := fun path w =>
    match assoc path (files w) with
    | Some _ => Some File
    | None => option_map Dir (assoc path (folders w))
    end;
  fs_readFileSync := fun path w =>
    match assoc path (files w) with
    | Some text => Ok text
    | None => Throw ("ENOENT: no such file or directory, open '" ++ path ++ "'")
    end;
  JSON_parse := fun text => assoc text documents;
  has_optifine_entity := optifine;
  newProject := fun f w =>
    let p := List.length (store w) in
    (Ok tt,
     with_projects w
       (push (store w)
             {| p_uuid := "uuid-" ++ string_of_nat p; p_name := ""; p_format := format_id f |})
       (push (opened w) p) (Some p));
  codec_parse := fun _ parsed _ w =>
    match parsed with
    | JObject _ => (Ok tt, w)
    | _ => (Throw "Invalid model file", w)
    end;
  ModelProject_all := opened;
  Project := active;
  project_uuid := field p_uuid "";
  project_name := field p_name "";
  project_format_id := field p_format None;
  select := fun p w => (Ok tt, with_projects w (store w) (opened w) (Some p));
  close := fun p _ w =>
    let rest := filter (fun q => negb (Nat.eqb q p)) (opened w) in
    (Ok tt,
     with_projects w (store w) rest
       (match active w with
        | Some a => if Nat.eqb a p then last (map Some rest) None else Some a
        | None => None
        end))
|}.

(** Two open projects, the second one active; a folder [models] with three
    project files, one of which is not JSON, and a sub-folder. *)
Definition w0 : world :=
  {| files := [ ("models/a.geo.json",
                 "{" ++ dq ++ "format_version" ++ dq ++ ":" ++ dq ++ "1.12.0" ++ dq ++ "}");
                ("models/b.json", "not json");
                ("models/c.bbmodel", "{}");
                ("models/sub/d.json", "{" ++ dq ++ "elements" ++ dq ++ ":[]}") ];
     folders := [ ("models",
                   [ ("a.geo.json", File); ("b.json", File); ("c.bbmodel", File);
                     ("notes.txt", File);
                     ("sub", Dir [ ("d.json", File) ]) ]) ];
     optifine := false;
     store := [ {| p_uuid := "3f2a9c1e"; p_name := "cube"; p_format := Some "bedrock" |};
                {| p_uuid := "1b81d77a"; p_name := ""; p_format := None |} ];
     opened := [0; 1];
     active := Some 1 |}.

(** [pathModule.join(dir, name)] for a directory path without trailing
    slash or dot segments and a plain entry name. *)
Definition simple_join (dir name : string) : string := dir ++ "/" ++ name.

End FakeHost.

(* ================================================================== *)
(** * What a batch does to the host, file by file *)
(* ================================================================== *)

Module BatchRun.
Import JS NodePath Resolver Host Tools.

Section Run.
Context {W : Type} `{API W}.

(** [file_run w filePath o w']: from the host state [w], the file
    [filePath] ends with the outcome [o] and leaves the host in [w'].  A
    file that cannot be read, is not JSON, or for which the chain throws or
    finds no OptiFine codec, is a failure that leaves the host as it was; a
    file with a binding is opened by [newProject] followed by [codec.parse],
    each from the state the step before left, and is a success only if both
    return. *)
Inductive file_run (w : W) (filePath : string) : outcome -> W -> Prop :=
| run_unreadable msg :
    fs_readFileSync filePath w = Throw msg ->
    file_run w filePath (inr ("Error opening " ++ filePath ++ ": " ++ msg)) w
| run_not_json content :
    fs_readFileSync filePath w = Ok content ->
    JSON_parse content = None ->
    file_run w filePath (inr ("Failed to parse: " ++ filePath)) w
| run_chain_throws content parsed msg :
    fs_readFileSync filePath w = Ok content ->
    JSON_parse content = Some parsed ->
    resolve_from_folder (has_optifine_entity w) filePath parsed = Throw msg ->
    file_run w filePath (inr ("Error opening " ++ filePath ++ ": " ++ msg)) w
| run_no_optifine content parsed :
    fs_readFileSync filePath w = Ok content ->
    JSON_parse content = Some parsed ->
    resolve_from_folder (has_optifine_entity w) filePath parsed = Ok OptifineMissing ->
    file_run w filePath (inr ("OptiFine codec not available for: " ++ filePath)) w
| run_create_throws content parsed binding msg w1 :
    fs_readFileSync filePath w = Ok content ->
    JSON_parse content = Some parsed ->
    resolve_from_folder (has_optifine_entity w) filePath parsed = Ok (Resolved binding) ->
    newProject (format binding) w = (Throw msg, w1) ->
    file_run w filePath (inr ("Error opening " ++ filePath ++ ": " ++ msg)) w1
| run_codec_throws content parsed binding msg w1 w2 :
    fs_readFileSync filePath w = Ok content ->
    JSON_parse content = Some parsed ->
    resolve_from_folder (has_optifine_entity w) filePath parsed = Ok (Resolved binding) ->
    newProject (format binding) w = (Ok tt, w1) ->
    codec_parse (codec binding) parsed filePath w1 = (Throw msg, w2) ->
    file_run w filePath (inr ("Error opening " ++ filePath ++ ": " ++ msg)) w2
| run_opened content parsed binding w1 w2 :
    fs_readFileSync filePath w = Ok content ->
    JSON_parse content = Some parsed ->
    resolve_from_folder (has_optifine_entity w) filePath parsed = Ok (Resolved binding) ->
    newProject (format binding) w = (Ok tt, w1) ->
    codec_parse (codec binding) parsed filePath w1 = (Ok tt, w2) ->
    file_run w filePath (inl (basename filePath)) w2.

(** The files of a batch, one after the other, each from the host state the
    one before left. *)
Inductive batch_run : W -> list string -> list outcome -> W -> Prop :=
| batch_done w : batch_run w [] [] w
| batch_next w filePath rest o w1 outcomes w2 :
    file_run w filePath o w1 ->
    batch_run w1 rest outcomes w2 ->
    batch_run w (filePath :: rest) (o :: outcomes) w2.

End Run.

End BatchRun.

(* ================================================================== *)
(** * The export tools [to_geo_json] and [export_geo_json] *)
(* ================================================================== *)

Module ExportHost.
Import JS Host.

(** The globals and modules the export handlers call. *)
Class ExportAPI (W : Type) : Type := {
  (** truthiness of [Project] *)
  project_open : W -> bool;
  (** truthiness of [Codecs.bedrock] *)
  bedrock_codec : W -> bool;
  (** evaluating the condition of the compatibility test of [to_geo_json],
      which reads [Format.codec] and [Format.id] and has an empty body: it
      can only throw, when [Format] is [null] or [undefined] *)
  read_Format : W -> result unit;
  (** [bedrockCodec.compile()] and the value it returns ([None]:
      [undefined]) *)
  bedrock_compile : M W (option json);
  (** [JSON.parse(text)] *)
  parse_text : string -> result json;
  (** [JSON.stringify(v, null, 2)] for [true], [JSON.stringify(v)] for
      [false] *)
  stringify : json -> bool -> string;
  (** [pathModule.dirname] *)
  path_dirname : string -> string;
  (** [fs.existsSync] *)
  fs_existsSync : string -> W -> bool;
  (** [fs.mkdirSync(dir, { recursive: true })] *)
  fs_mkdirSync : string -> M W unit;
  (** [fs.writeFileSync(filePath, jsonString, "utf8")] *)
  fs_writeFileSync : string -> string -> M W unit
}.

End ExportHost.

Module ExportHandlers.
Import JS Host ExportHost.

Local Notation "x <- m ;; k" := (bind m (fun x => k))
  (at level 61, m at next level, right associativity).
Local Notation "m ;;; k" := (bind m (fun _ => k))
  (at level 61, right associativity).

Definition no_project : string :=
  "No project is currently open. Create or open a project first.".
Definition no_codec : string := "Bedrock codec is not available.".
Definition compile_failed : string :=
  "Failed to compile model to geometry JSON format.".

Section Handlers.
Context {W : Type} `{ExportAPI W}.

(** [to_geo_json.execute] *)
Definition to_geo_json (pretty : bool) : M W string :=
  opened <- read project_open ;;
  if negb opened then throw no_project
  else
    bedrockCodec <- read bedrock_codec ;;
    if negb bedrockCodec then throw no_codec
    else
      eval read_Format ;;;
      geoJson <- bedrock_compile ;;
      if negb (truthy geoJson) then throw compile_failed
      else
        match geoJson with
        | Some (JString text) =>
            if pretty then
              parsed <- eval (fun _ => parse_text text) ;;
              ret (stringify parsed true)
            else ret text
        | Some v => ret (if pretty then stringify v true else stringify v false)
        | None => throw compile_failed (* not reached: [undefined] is falsy *)
        end.

(** [export_geo_json.execute] *)
Definition export_geo_json (path : string) (pretty : bool) : M W string :=
  opened <- read project_open ;;
  if negb opened then throw no_project
  else
    bedrockCodec <- read bedrock_codec ;;
    if negb bedrockCodec then throw no_codec
    else
      geoJson <- bedrock_compile ;;
      if negb (truthy geoJson) then throw compile_failed
      else
        jsonString <-
          match geoJson with
          | Some (JString text) =>
              if pretty then
                parsed <- eval (fun _ => parse_text text) ;;
                ret (stringify parsed true)
              else ret text
          | Some v => ret (if pretty then stringify v true else stringify v false)
          | None => throw compile_failed (* not reached: [undefined] is falsy *)
          end ;;
        let filePath := ExportTools.geo_json_path path in
        let dir := path_dirname filePath in
        present <- read (fs_existsSync dir) ;;
        (if negb present then fs_mkdirSync dir else ret tt) ;;;
        fs_writeFileSync filePath jsonString ;;;
        ret ("Successfully exported model to: " ++ filePath).

(** What [export_geo_json] does once it has the text to write. *)
Definition write_export (path jsonString : string) : M W string :=
  let filePath := ExportTools.geo_json_path path in
  let dir := path_dirname filePath in
  present <- read (fs_existsSync dir) ;;
  (if negb present then fs_mkdirSync dir else ret tt) ;;;
  fs_writeFileSync filePath jsonString ;;;
  ret ("Successfully exported model to: " ++ filePath).

End Handlers.

End ExportHandlers.

(* ================================================================== *)
(** * More small hosts to run the handlers on *)
(* ================================================================== *)

Module FakeExport.
Import JS NodePath Host ExportHost.

Record world : Type := {
  opened : bool;                    (* is there a Project *)
  bedrock : bool;                   (* is Codecs.bedrock there *)
  compiled : option json;           (* what compile() returns *)
  dirs : list string;               (* the directories that exist *)
  written : list (string * string)  (* the files written, latest first *)
}.

(** In a reversed path, what is left of its last slash. *)
Fixpoint before_slash (l : list ascii) : option (list ascii) :=
  match l with
  | [] => None
  | c :: r => if Ascii.eqb c slash then Some r else before_slash r
  end.

(** The part of a relative path before its last slash, [.] when it has
    none. *)
Definition simple_dirname (p : string) : string :=
  match before_slash (rev_chars p) with
  | Some before => string_of_list_ascii (rev before)
  | None => "."
  end.

#[global] Instance fake_export_api : ExportAPI world := {|
  project_open := opened;
  bedrock_codec := bedrock;
  read_Format := fun _ => Ok tt;
  bedrock_compile := fun w => (Ok (compiled w), w);
  parse_text := fun text =>
    match assoc text FakeHost.documents with
    | Some v => Ok v
    | None => Throw "Unexpected token"
    end;
  stringify := fun v _ =>
    match v with
    | JObject [] => "{}"
    | JArray [] => "[]"
    | _ => "null"
    end;
  path_dirname := simple_dirname;
  fs_existsSync := fun dir w => includes (dirs w) dir;
  fs_mkdirSync := fun dir w =>
    (Ok tt, {| opened := opened w; bedrock := bedrock w; compiled := compiled w;
               dirs := dir :: dirs w; written := written w |});
  fs_writeFileSync := fun filePath text w =>
    (Ok tt, {| opened := opened w; bedrock := bedrock w; compiled := compiled w;
               dirs := dirs w; written := (filePath, text) :: written w |})
|}.

(** A project is open, the codec compiles to the text [{}], and no
    directory exists yet. *)
Definition e0 : world :=
  {| opened := true; bedrock := true; compiled := Some (JString "{}");
     dirs := []; written := [] |}.

(** [FakeHost.w0] with two more files: the JSON documents [null] and [[]]. *)
Definition w1 : FakeHost.world :=
  {| FakeHost.files := ("models/null.json", "null") :: ("models/list.json", "[]")
                       :: FakeHost.files FakeHost.w0;
     FakeHost.folders := FakeHost.folders FakeHost.w0;
     FakeHost.optifine := false;
     FakeHost.store := FakeHost.store FakeHost.w0;
     FakeHost.opened := FakeHost.opened FakeHost.w0;
     FakeHost.active := FakeHost.active FakeHost.w0 |}.

End FakeExport.

(* ================================================================== *)
(** * Properties *)
(* ================================================================== *)

Import JS NodePath Resolver Scanner Host Tools.

(** ** Sanity checks of the runtime model *)

Example ex_extname_1 : NodePath.extname "model.geo.json" = ".json".
Proof. reflexivity. Qed.
Example ex_extname_2 : NodePath.extname "dir/.json" = "".
Proof. reflexivity. Qed.
Example ex_extname_3 : NodePath.extname "a.b/c" = "".
Proof. reflexivity. Qed.
Example ex_extname_4 : NodePath.extname ".." = "".
Proof. reflexivity. Qed.
Example ex_extname_5 : NodePath.extname "a/x.jem//" = ".jem".
Proof. reflexivity. Qed.
Example ex_extname_6 : NodePath.extname "..." = ".".
Proof. reflexivity. Qed.
Example ex_extname_7 : NodePath.extname "a." = ".".
Proof. reflexivity. Qed.
Example ex_basename_1 : NodePath.basename "/a/b/c.json" = "c.json".
Proof. reflexivity. Qed.
Example ex_parseInt_1 : JS.parseInt "  12ab" = Some 12%Z.
Proof. reflexivity. Qed.
Example ex_parseInt_2 : JS.parseInt "ab" = None.
Proof. reflexivity. Qed.
Example ex_parseInt_3 : JS.parseInt "-7" = Some (-7)%Z.
Proof. reflexivity. Qed.
Example ex_parseInt_nbsp :
  JS.parseInt (String (ascii_of_nat 194) (String (ascii_of_nat 160) " 1")) = Some 1%Z.
Proof. reflexivity. Qed.
Example ex_parseInt_bom :
  JS.parseInt (String (ascii_of_nat 239) (String (ascii_of_nat 187)
                 (String (ascii_of_nat 191) "+42x"))) = Some 42%Z.
Proof. reflexivity. Qed.
Example ex_parseInt_line_separator :
  JS.parseInt (String (ascii_of_nat 226) (String (ascii_of_nat 128)
                 (String (ascii_of_nat 168) "7"))) = Some 7%Z.
Proof. reflexivity. Qed.
Example ex_parseInt_arrow :
  JS.parseInt (String (ascii_of_nat 226) (String (ascii_of_nat 134)
                 (String (ascii_of_nat 146) "1"))) = None.
Proof. reflexivity. Qed.
Example ex_well_formed :
  JS.well_formed (String (ascii_of_nat 194) (String (ascii_of_nat 160) "1")) = true
  /\ JS.well_formed (String (ascii_of_nat 160) "1") = false.
Proof. split; reflexivity. Qed.
Example ex_str_1 : JS.string_of_nat 120 = "120".
Proof. reflexivity. Qed.
Example ex_str_2 : JS.string_of_nat 0 = "0".
Proof. reflexivity. Qed.
Example ex_geo_1 : ExportTools.geo_json_path "out/model" = "out/model.geo.json".
Proof. reflexivity. Qed.
Example ex_geo_2 : ExportTools.geo_json_path "out/model.json" = "out/model.geo.json".
Proof. reflexivity. Qed.
Example ex_geo_3 : ExportTools.geo_json_path "out/model.geo.json" = "out/model.geo.json".
Proof. reflexivity. Qed.
Example ex_geo_4 : ExportTools.geo_json_path "a.json/b.json" = "a.geo.json/b.json".
Proof. reflexivity. Qed.

(** ** Strings *)

Lemma append_assoc_string (a b c : string) : (a ++ b) ++ c = a ++ b ++ c.
Proof. induction a as [|x a IH]; simpl; [reflexivity | now rewrite IH]. Qed.

Lemma prefix_append (a b : string) : prefix a (a ++ b) = true.
Proof.
  induction a as [|x a IH]; simpl; [destruct b; reflexivity|].
  destruct (ascii_dec x x); [exact IH | congruence].
Qed.

Lemma endsWith_refl (s : string) : endsWith s s = true.
Proof.
  destruct s; simpl; [reflexivity|].
  rewrite Ascii.eqb_refl, String.eqb_refl. reflexivity.
Qed.

Lemma endsWith_app (pre suf : string) : endsWith (pre ++ suf) suf = true.
Proof.
  induction pre as [|c pre IH]; simpl.
  - apply endsWith_refl.
  - rewrite IH. apply orb_true_r.
Qed.

Lemma endsWith_split (s suf : string) :
  endsWith s suf = true -> exists pre, s = pre ++ suf.
Proof.
  induction s as [|c r IH]; intros E.
  - exists "". cbn [endsWith] in E. rewrite orb_false_r in E.
    apply String.eqb_eq in E. subst. reflexivity.
  - cbn [endsWith] in E. apply orb_true_iff in E. destruct E as [E|E].
    + apply String.eqb_eq in E. exists "". simpl. congruence.
    + destruct (IH E) as [pre ->]. exists (String c pre). reflexivity.
Qed.

(** Two suffixes that disagree on their last character exclude each other;
    stated for the pair the batch opener tests. *)
Lemma endsWith_geo_json_not_bbmodel (s : string) :
  endsWith s ".geo.json" = true -> endsWith s ".bbmodel" = false.
Proof.
  induction s as [|c r IH]; intros E.
  - reflexivity.
  - cbn [endsWith] in E. apply orb_true_iff in E. destruct E as [E|E].
    + apply String.eqb_eq in E. rewrite E. reflexivity.
    + cbn [endsWith]. rewrite (IH E), orb_false_r.
      destruct (String.eqb (String c r) ".bbmodel") eqn:B; [|reflexivity].
      apply String.eqb_eq in B. injection B as _ B. subst r. discriminate E.
Qed.

Lemma list_ascii_of_string_app (a b : string) :
  list_ascii_of_string (a ++ b) = (list_ascii_of_string a ++ list_ascii_of_string b)%list.
Proof. induction a as [|c a IH]; simpl; [reflexivity | now rewrite IH]. Qed.

(** Last-dot-segment extraction sees a [*.geo.json] name as [.json]. *)
Lemma extname_geo_json (s : string) :
  endsWith s ".geo.json" = true -> toLowerCase (extname s) = ".json".
Proof.
  intros E. destruct (endsWith_split _ _ E) as [pre ->].
  unfold extname, last_portion_rev, rev_chars.
  rewrite list_ascii_of_string_app, rev_app_distr. reflexivity.
Qed.

Lemma lower_ascii_dot (c : ascii) : lower_ascii c = dot -> c = dot.
Proof.
  destruct c as [[] [] [] [] [] [] [] []]; vm_compute; intros E;
    first [reflexivity | discriminate E].
Qed.

Lemma toLowerCase_dot (l : list ascii) :
  In dot (list_ascii_of_string (toLowerCase (string_of_list_ascii l))) -> In dot l.
Proof.
  induction l as [|c l IH]; simpl; [tauto|].
  intros [E|E]; [left; now apply lower_ascii_dot | right; auto].
Qed.

Lemma split_last_dot_after (l after before : list ascii) :
  split_last_dot l = Some (after, before) -> ~ In dot after.
Proof.
  revert after before. induction l as [|c l IH]; intros after before; simpl.
  - discriminate.
  - destruct (Ascii.eqb c dot) eqn:D.
    + intros E. injection E as <- _. simpl. tauto.
    + destruct (split_last_dot l) as [[a b]|]; [|discriminate].
      intros E. injection E as <- _. simpl. intros [F|F].
      * subst c. rewrite Ascii.eqb_refl in D. discriminate.
      * exact (IH _ _ eq_refl F).
Qed.

(** [path.extname] returns the empty string or one dot followed by
    characters other than the dot. *)
Lemma extname_shape (p : string) :
  extname p = ""
  \/ exists after, extname p = String dot (string_of_list_ascii after) /\ ~ In dot after.
Proof.
  unfold extname.
  destruct (split_last_dot (last_portion_rev p)) as [[after before]|] eqn:S;
    [|now left].
  assert (N : ~ In dot (rev after)).
  { intros F. apply in_rev in F. exact (split_last_dot_after _ _ _ S F). }
  destruct before as [|c [|c' before]]; [now left| |].
  - destruct after; [destruct (Ascii.eqb c dot); [now left|] |];
      right; eexists; (split; [reflexivity | exact N]).
  - right; eexists; (split; [reflexivity | exact N]).
Qed.

(** The comparison [ext === ".geo.json"] of [open_project] is never true. *)
Lemma extname_never_geo_json (p : string) :
  String.eqb (toLowerCase (extname p)) ".geo.json" = false.
Proof.
  apply String.eqb_neq. intros E.
  destruct (extname_shape p) as [Z|[after [Z N]]]; rewrite Z in E.
  - discriminate E.
  - apply N, toLowerCase_dot.
    simpl in E. injection E as E. rewrite E. simpl. tauto.
Qed.

(** ** The format resolver *)

(** Case analysis on every condition of a chain of [if]s. *)
Ltac split_ifs :=
  repeat match goal with
         | |- context [if ?b then _ else _] => destruct b eqn:?; cbn [rbind]
         end.

Lemma get_not_null (parsed : json) (k : string) :
  parsed <> JNull -> exists v, get parsed k = Ok v.
Proof. destruct parsed; intros N; [congruence | eexists; reflexivity ..]. Qed.

Lemma model_format_tag_not_null (parsed : json) :
  parsed <> JNull -> exists tag, model_format_tag parsed = Ok tag.
Proof.
  intros N. unfold model_format_tag.
  destruct (get_not_null parsed "meta" N) as [v ->]. eexists; reflexivity.
Qed.

Lemma geometry_marker_not_null (parsed : json) :
  parsed <> JNull -> exists b, geometry_marker parsed = Ok b.
Proof.
  intros N. unfold geometry_marker.
  destruct (get_not_null parsed "minecraft:geometry" N) as [g ->].
  destruct (get_not_null parsed "format_version" N) as [v ->].
  simpl. destruct (truthy g); eexists; reflexivity.
Qed.

Lemma block_model_marker_not_null (parsed : json) :
  parsed <> JNull -> exists b, block_model_marker parsed = Ok b.
Proof.
  intros N. unfold block_model_marker.
  destruct (get_not_null parsed "elements" N) as [e ->].
  destruct (get_not_null parsed "textures" N) as [t ->].
  simpl. destruct (truthy e); eexists; reflexivity.
Qed.

(** The slip behind C1 in [open_project]: the extension it compares with
    [".geo.json"] is the last dot segment, so a geometry file with neither a
    geometry marker nor a format tag in its content gets the generic binding
    there, while the batch opener, which tests the whole path, binds it to
    the Bedrock codec. *)
Lemma open_project_geo_json_suffix_missed :
  resolve_open_project false "model.geo.json" (JObject []) = Ok generic_binding
  /\ resolve_open_project false "model.geo.json" (JObject [("elements", JArray [])])
     = Ok java_block_binding
  /\ resolve_from_folder false "model.geo.json" (JObject [])
     = Ok (Resolved bedrock_binding).
Proof. repeat split; reflexivity. Qed.

(** C1, as stated, fails: a path ending in [.geo.json] whose content carries
    a format tag ([meta.model_format]) is bound to the native project codec,
    by the first rule of the chain, in both openers. *)
Lemma C1_counterexample :
  let parsed := JObject [("meta", JObject [("model_format", JString "free")])] in
  endsWith "model.geo.json" ".geo.json" = true
  /\ resolve_open_project true "model.geo.json" parsed
     = Ok (Binding Codecs_project (Formats_at (Some (JString "free"))))
  /\ resolve_from_folder true "model.geo.json" parsed
     = Ok (Resolved (Binding Codecs_project (Formats_at (Some (JString "free")))))
  /\ Binding Codecs_project (Formats_at (Some (JString "free"))) <> bedrock_binding.
Proof. repeat split; try reflexivity. discriminate. Qed.

(** C1 (amended): for every path ending in [.geo.json] and every content
    without a truthy [meta.model_format] tag, the batch opener's resolver,
    which tests the whole path, selects the Bedrock binding; the resolver of
    [open_project] selects it whenever the content also carries a truthy
    [minecraft:geometry] or [format_version] marker. *)
Theorem C1_geo_json_suffix_binding
        (optifine : bool) (path : string) (parsed : json) (tag : option json) :
  endsWith path ".geo.json" = true ->
  model_format_tag parsed = Ok tag ->
  truthy tag = false ->
  resolve_from_folder optifine path parsed = Ok (Resolved bedrock_binding)
  /\ (geometry_marker parsed = Ok true ->
      resolve_open_project optifine path parsed = Ok bedrock_binding).
Proof.
  intros E T F. split.
  - unfold resolve_from_folder.
    rewrite (endsWith_geo_json_not_bbmodel _ E), T, E. simpl. rewrite F. reflexivity.
  - intros G. unfold resolve_open_project.
    rewrite (extname_geo_json _ E), T, G. simpl. rewrite F. reflexivity.
Qed.

Lemma C1_geo_json_suffix_binding_witness :
  let parsed := JObject [("format_version", JString "1.12.0")] in
  resolve_from_folder false "model.geo.json" parsed = Ok (Resolved bedrock_binding)
  /\ (geometry_marker parsed = Ok true ->
      resolve_open_project false "model.geo.json" parsed = Ok bedrock_binding).
Proof.
  apply (C1_geo_json_suffix_binding false "model.geo.json"
           (JObject [("format_version", JString "1.12.0")]) None);
    reflexivity.
Defined.




(** C6, as stated, fails: an [elements] key whose value is falsy does not
    count, and a file whose whole name is [.json] has no extension. *)
Lemma C6_counterexample :
  (endsWith "m.json" ".json" = true
   /\ has_key (JObject [("elements", JNull)]) "elements" = true
   /\ resolve_open_project true "m.json" (JObject [("elements", JNull)])
      = Ok generic_binding
   /\ resolve_from_folder true "m.json" (JObject [("elements", JNull)])
      = Ok (Resolved generic_binding))
  /\ (endsWith "dir/.json" ".json" = true
      /\ has_key (JObject [("elements", JArray [])]) "elements" = true
      /\ resolve_open_project true "dir/.json" (JObject [("elements", JArray [])])
         = Ok generic_binding
      /\ resolve_from_folder true "dir/.json" (JObject [("elements", JArray [])])
         = Ok (Resolved generic_binding)).
Proof. repeat split; reflexivity. Qed.

(** C6 (amended): for every path whose extension (the last dot segment of
    its last portion, lower-cased) is [.json] but which does not end in
    [.geo.json], and every content whose [elements] value is truthy, when no
    earlier rule matches (no truthy format tag, no geometry marker and, in
    the batch opener, a path not ending in [.bbmodel]) both resolvers choose
    the Java block/item-model binding, not the generic one. *)
Theorem C6_elements_selects_java_block
        (optifine : bool) (path : string) (parsed : json)
        (tag elements : option json) :
  toLowerCase (extname path) = ".json" ->
  endsWith path ".geo.json" = false ->
  model_format_tag parsed = Ok tag -> truthy tag = false ->
  geometry_marker parsed = Ok false ->
  get parsed "elements" = Ok elements -> truthy elements = true ->
  resolve_open_project optifine path parsed = Ok java_block_binding
  /\ (endsWith path ".bbmodel" = false ->
      resolve_from_folder optifine path parsed = Ok (Resolved java_block_binding))
  /\ java_block_binding <> generic_binding.
Proof.
  intros X J T F G E Y. repeat split.
  - unfold resolve_open_project, block_model_marker.
    rewrite X, T, G, E. simpl. rewrite F, Y. reflexivity.
  - intros B. unfold resolve_from_folder, block_model_marker.
    rewrite X, T, G, E, B, J. simpl. rewrite F, Y. reflexivity.
  - discriminate.
Qed.

Lemma C6_elements_selects_java_block_witness :
  resolve_open_project false "cube.json" (JObject [("elements", JArray [])])
  = Ok java_block_binding.
Proof.
  exact (proj1 (C6_elements_selects_java_block false "cube.json"
                  (JObject [("elements", JArray [])]) None (Some (JArray []))
                  eq_refl eq_refl eq_refl eq_refl eq_refl eq_refl eq_refl)).
Defined.

(** ** The export path *)

Lemma endsWith_geo_json_json (s : string) :
  endsWith s ".geo.json" = true -> endsWith s ".json" = true.
Proof.
  intros E. destruct (endsWith_split _ _ E) as [pre ->].
  change ".geo.json" with (".geo" ++ ".json").
  rewrite <- append_assoc_string. apply endsWith_app.
Qed.

(** X24: the two endings the normalisation gets right for every path: a path
    already ending in [.geo.json] is kept, and a path not ending in [.json]
    gets [.geo.json] appended. *)
Lemma geo_json_path_kept_or_appended (path : string) :
  (endsWith path ".geo.json" = true -> ExportTools.geo_json_path path = path)
  /\ (endsWith path ".json" = false ->
      ExportTools.geo_json_path path = path ++ ".geo.json"
      /\ endsWith (ExportTools.geo_json_path path) ".geo.json" = true).
Proof.
  unfold ExportTools.geo_json_path. split.
  - intros ->. reflexivity.
  - intros J. destruct (endsWith path ".geo.json") eqn:G.
    + apply endsWith_geo_json_json in G. congruence.
    + rewrite J. split; [reflexivity | apply endsWith_app].
Qed.

(** C3 at the failing input: [replace] rewrites the first [".json"] of the
    path, which need not be its ending; the target then still ends in
    [.json] but not in [.geo.json]. *)
Theorem C3_export_path_first_occurrence :
  endsWith "a.json/b.json" ".geo.json" = false
  /\ endsWith "a.json/b.json" ".json" = true
  /\ ExportTools.geo_json_path "a.json/b.json" = "a.geo.json/b.json"
  /\ endsWith (ExportTools.geo_json_path "a.json/b.json") ".geo.json" = false.
Proof. repeat split; reflexivity. Qed.

(** ** The directory scanner *)

(** Induction over a directory tree, with the hypothesis available for every
    entry of a directory. *)
Lemma FsNode_tree_ind (P : FsNode -> Prop) :
  P File -> P Other ->
  (forall entries, Forall (fun e => P (snd e)) entries -> P (Dir entries)) ->
  forall node, P node.
Proof.
  intros HF HO HD. fix IH 1. intros [ | entries | ].
  - exact HF.
  - apply HD. induction entries as [|e entries IHe]; constructor.
    + apply IH.
    + exact IHe.
  - exact HO.
Qed.

Section ScannerFacts.
Variable path_join : string -> string -> string.
Variable recursive : bool.
Variable allowed : list string.

Local Abbreviation scan_entry := (scanEntry path_join recursive allowed).
Local Abbreviation scan := (scanDirectory path_join recursive allowed).
Local Abbreviation ok := (accepted allowed).
Local Abbreviation at_ := (located path_join recursive).

Lemma fold_scan_acc (dir : string) (entries : list (string * FsNode)) :
  Forall (fun e => forall d n acc,
              scan_entry d n (snd e) acc = (acc ++ scan_entry d n (snd e) [])%list)
         entries ->
  forall acc,
    fold_left (fun a e => scan_entry dir (fst e) (snd e) a) entries acc
    = (acc ++ fold_left (fun a e => scan_entry dir (fst e) (snd e) a) entries [])%list.
Proof.
  induction 1 as [|e entries He _ IH]; intros acc; simpl.
  - now rewrite app_nil_r.
  - rewrite IH, He.
    rewrite (IH (scan_entry dir (fst e) (snd e) [])).
    now rewrite app_assoc.
Qed.

(** The scanner only ever appends to [projectFiles]. *)
Lemma scanEntry_acc (node : FsNode) :
  forall dir name acc,
    scan_entry dir name node acc = (acc ++ scan_entry dir name node [])%list.
Proof.
  induction node as [ | | entries IH] using FsNode_tree_ind; intros dir name acc; simpl.
  - unfold push. destruct (accepted allowed name); simpl; now rewrite ?app_nil_r.
  - now rewrite app_nil_r.
  - pose proof (fold_scan_acc (path_join dir name) entries IH acc) as F.
    destruct recursive; [exact F | now rewrite app_nil_r].
Qed.

Lemma scanDirectory_cons (dir : string) (e : string * FsNode) entries :
  scan dir (e :: entries) []
  = (scan_entry dir (fst e) (snd e) [] ++ scan dir entries [])%list.
Proof.
  unfold scanDirectory. simpl.
  apply fold_scan_acc. apply Forall_forall. intros x _ d n acc.
  apply scanEntry_acc.
Qed.

Lemma in_scanDirectory (dir full : string) entries :
  In full (scan dir entries [])
  <-> exists e, In e entries /\ In full (scan_entry dir (fst e) (snd e) []).
Proof.
  induction entries as [|e entries IH].
  - simpl. split; [tauto | intros [e [[] _]]].
  - rewrite scanDirectory_cons, in_app_iff, IH. split.
    + intros [F | [x [I F]]]; [exists e | exists x]; simpl; auto.
    + intros [x [[<- | I] F]]; [left | right; exists x]; auto.
Qed.

(** Every regular file the scanner can reach and accepts is discovered. *)
Lemma located_discovered (dir name full : string) entries :
  at_ dir entries name full -> ok name = true -> In full (scan dir entries []).
Proof.
  intros L A. induction L as [dir entries name I | dir entries sub subs name full R I L IH].
  - apply in_scanDirectory. exists (name, File). split; [exact I|].
    simpl. rewrite A. simpl. now left.
  - apply in_scanDirectory. exists (sub, Dir subs). split; [exact I|].
    simpl. specialize (IH A). unfold scanDirectory in IH.
    destruct recursive; [exact IH | discriminate R].
Qed.

(** Everything discovered is a reachable, accepted regular file. *)
Lemma discovered_located (node : FsNode) :
  forall dir name full,
    In full (scan_entry dir name node []) ->
    (node = File /\ ok name = true /\ full = path_join dir name)
    \/ (recursive = true
        /\ exists subs name',
            node = Dir subs /\ at_ (path_join dir name) subs name' full
            /\ ok name' = true).
Proof.
  induction node as [ | | entries IH] using FsNode_tree_ind; intros dir name full; simpl.
  - destruct (accepted allowed name) eqn:A; simpl; [|tauto].
    intros [<- | []]. left. auto.
  - tauto.
  - intros I0. right.
    assert (R : recursive = true)
      by (destruct recursive; [reflexivity | destruct I0]).
    split; [exact R|].
    assert (I : In full (scan (path_join dir name) entries [])).
    { unfold scanDirectory. destruct recursive; [exact I0 | discriminate R]. }
    clear I0.
    apply in_scanDirectory in I. destruct I as [[n node] [I F]].
    rewrite Forall_forall in IH. specialize (IH _ I _ _ _ F). simpl in IH, F.
    destruct IH as [[-> [A ->]] | [_ [subs [n' [-> [L A]]]]]].
    + exists entries, n. repeat split; [|exact A]. now apply located_here.
    + exists entries, n'. repeat split; [|exact A].
      eapply located_below; eauto.
Qed.

Lemma scanDirectory_spec (dir full : string) entries :
  In full (scan dir entries [])
  <-> exists name, at_ dir entries name full /\ ok name = true.
Proof.
  split.
  - intros I. apply in_scanDirectory in I. destruct I as [[n node] [I F]].
    apply discovered_located in F. simpl in F.
    destruct F as [[-> [A ->]] | [R [subs [n' [-> [L A]]]]]].
    + exists n. split; [now apply located_here | exact A].
    + exists n'. split; [|exact A]. eapply located_below; eauto.
  - intros [name [L A]]. eapply located_discovered; eauto.
Qed.

End ScannerFacts.

Lemma located_flat (path_join : string -> string -> string) dir entries name full :
  located path_join false dir entries name full
  <-> In (name, File) entries /\ full = path_join dir name.
Proof.
  split.
  - intros L. destruct L as [dir entries name I | dir entries sub subs name full R _ _].
    + auto.
    + discriminate R.
  - intros [I ->]. now apply located_here.
Qed.

(** C7: a regular file whose name ends in [.geo.json] is discovered whenever
    [".geo.json"] is among the allowed extensions, wherever the scanner
    reaches it, although its last dot segment is [.json] (which need not be
    allowed). *)
Theorem C7_geo_json_matched_on_full_name
        (path_join : string -> string -> string) (recursive : bool)
        (allowedExtensions : list string) (dir : string)
        (entries : list (string * FsNode)) (name full : string) :
  located path_join recursive dir entries name full ->
  endsWith name ".geo.json" = true ->
  includes allowedExtensions ".geo.json" = true ->
  In full (scanDirectory path_join recursive allowedExtensions dir entries [])
  /\ toLowerCase (extname name) = ".json".
Proof.
  intros L E A. split.
  - eapply located_discovered; [exact L|].
    unfold accepted. now rewrite E, A.
  - now apply extname_geo_json.
Qed.

Lemma C7_geo_json_matched_on_full_name_witness :
  In "models/a.geo.json"
     (scanDirectory FakeHost.simple_join false [".geo.json"] "models"
                    [("a.geo.json", File); ("b.json", File)] [])
  /\ toLowerCase (extname "a.geo.json") = ".json".
Proof.
  apply (C7_geo_json_matched_on_full_name FakeHost.simple_join false [".geo.json"]
           "models" [("a.geo.json", File); ("b.json", File)] "a.geo.json").
  - apply (located_here FakeHost.simple_join false "models"). simpl. auto.
  - reflexivity.
  - reflexivity.
Defined.

(** C8: without [recursive] the scanner discovers exactly the accepted
    regular files listed in the root directory itself, whatever the
    sub-directories hold; with [recursive] it discovers exactly the accepted
    regular files at any depth below the root. *)
Theorem C8_scanner_recursion
        (path_join : string -> string -> string) (allowedExtensions : list string)
        (dir : string) (entries : list (string * FsNode)) :
  (forall full,
      In full (scanDirectory path_join false allowedExtensions dir entries [])
      <-> exists name, In (name, File) entries
                       /\ accepted allowedExtensions name = true
                       /\ full = path_join dir name)
  /\ (forall full,
         In full (scanDirectory path_join true allowedExtensions dir entries [])
         <-> exists name, located path_join true dir entries name full
                          /\ accepted allowedExtensions name = true).
Proof.
  split; intros full.
  - rewrite scanDirectory_spec. split.
    + intros [name [L A]]. apply located_flat in L. exists name. tauto.
    + intros [name [I [A F]]]. exists name. split; [|exact A].
      apply located_flat. auto.
  - apply scanDirectory_spec.
Qed.

Lemma C8_scanner_recursion_witness :
  In "models/sub/d.json"
     (scanDirectory FakeHost.simple_join true PROJECT_EXTENSIONS "models"
                    [("a.geo.json", File); ("sub", Dir [("d.json", File)])] [])
  /\ ~ In "models/sub/d.json"
       (scanDirectory FakeHost.simple_join false PROJECT_EXTENSIONS "models"
                      [("a.geo.json", File); ("sub", Dir [("d.json", File)])] []).
Proof.
  pose proof (C8_scanner_recursion FakeHost.simple_join PROJECT_EXTENSIONS "models"
                [("a.geo.json", File); ("sub", Dir [("d.json", File)])]) as [F T].
  split.
  - apply T. exists "d.json". split; [|reflexivity].
    apply (located_below FakeHost.simple_join true "models" _ "sub" [("d.json", File)]).
    + reflexivity.
    + simpl. auto.
    + apply (located_here FakeHost.simple_join true). simpl. auto.
  - intros I. apply F in I. destruct I as [name [I [_ E]]].
    simpl in I. destruct I as [I | [I | []]]; inversion I; subst name.
    discriminate E.
Defined.

(** ** Decimal notation and [parseInt] *)

Lemma digit_of_digit_char (d : nat) :
  d < 10 -> digit_of (digit_char d) = Some (Z.of_nat d).
Proof.
  intros L. do 10 (destruct d as [|d]; [reflexivity|]). lia.
Qed.

Lemma parseInt_leading_digit (d : nat) (r : string) :
  d < 10 ->
  parseInt (String (digit_char d) r) = read_digits (String (digit_char d) r) None.
Proof.
  intros L. do 10 (destruct d as [|d]; [reflexivity|]). lia.
Qed.

Lemma digits_aux_head (fuel n : nat) (rest : string) :
  exists d r, d < 10 /\ digits_aux fuel n rest = String (digit_char d) r.
Proof.
  revert n rest. induction fuel as [|fuel IH]; intros n rest; cbn [digits_aux].
  - exists (n mod 10), rest. split; [apply Nat.mod_upper_bound; lia | reflexivity].
  - destruct (n / 10 =? 0)%nat.
    + exists (n mod 10), rest. split; [apply Nat.mod_upper_bound; lia | reflexivity].
    + apply IH.
Qed.

Lemma read_digits_aux (fuel n : nat) (rest : string) :
  n <= fuel ->
  read_digits (digits_aux fuel n rest) None = read_digits rest (Some (Z.of_nat n)).
Proof.
  revert n rest. induction fuel as [|fuel IH]; intros n rest L.
  - assert (n = 0) by lia. subst n. reflexivity.
  - cbn [digits_aux].
    assert (M : n mod 10 < 10) by (apply Nat.mod_upper_bound; lia).
    pose proof (Nat.div_mod_eq n 10) as D.
    destruct (n / 10 =? 0)%nat eqn:Q.
    + apply Nat.eqb_eq in Q. cbn [read_digits].
      rewrite (digit_of_digit_char _ M). do 2 f_equal. lia.
    + apply Nat.eqb_neq in Q. rewrite IH by lia. cbn [read_digits].
      rewrite (digit_of_digit_char _ M). do 2 f_equal. lia.
Qed.

(** Reading back the decimal notation of an index gives the index. *)
Lemma parseInt_string_of_nat (n : nat) :
  parseInt (string_of_nat n) = Some (Z.of_nat n).
Proof.
  unfold string_of_nat.
  destruct (digits_aux_head n n "") as [d [r [L E]]].
  pose proof (read_digits_aux n n "" (le_n n)) as R.
  rewrite E in *. rewrite (parseInt_leading_digit d r L). exact R.
Qed.

(** ** The handlers, step by step *)

Section HandlerFacts.
Context {W : Type} `{API W}.

Lemma switch_project_steps (identifier : string) (w : W) :
  switch_project identifier w =
  match ModelProject_all w with
  | [] => (Throw "No projects are currently open.", w)
  | _ :: _ =>
      match switch_target w identifier with
      | None =>
          (Throw ("Project not found: " ++ identifier
                  ++ ". Use 'list_open_projects' to see available projects."), w)
      | Some target =>
          match select target w with
          | (Ok _, w') =>
              (Ok ("Switched to project: " ++ or_untitled (project_name target w')
                   ++ " (UUID: " ++ project_uuid target w' ++ ")"), w')
          | (Throw msg, w') => (Throw msg, w')
          end
      end
  end.
Proof.
  unfold switch_project, bind, read, throw, ret.
  destruct (ModelProject_all w); [reflexivity|].
  destruct (switch_target w identifier) as [target|]; [|reflexivity].
  destruct (select target w) as [[[]|msg] w']; reflexivity.
Qed.

Lemma close_project_by_uuid_steps (uuid : string) (force : bool) (w : W) :
  uuid <> "" ->
  close_project (Some uuid) force w =
  match ModelProject_all w with
  | [] => (Throw "No projects are currently open.", w)
  | _ :: _ =>
      match find_by_uuid w uuid with
      | None => (Throw ("Project not found: " ++ uuid), w)
      | Some target =>
          match close target force w with
          | (Ok _, w') =>
              (Ok ("Closed project: " ++ or_untitled (project_name target w)
                   ++ " (UUID: " ++ project_uuid target w ++ ")"), w')
          | (Throw msg, w') => (Throw msg, w')
          end
      end
  end.
Proof.
  intros N. apply String.eqb_neq in N.
  unfold close_project, bind, read, throw, ret. rewrite N.
  destruct (ModelProject_all w); [reflexivity|].
  destruct (find_by_uuid w uuid) as [target|]; [|reflexivity].
  destruct (close target force w) as [[[]|msg] w']; reflexivity.
Qed.

Lemma find_by_uuid_none (w : W) (identifier : string) :
  (forall p, In p (ModelProject_all w) -> project_uuid p w <> identifier) ->
  find_by_uuid w identifier = None.
Proof.
  intros U. unfold find_by_uuid.
  destruct (find _ _) as [p|] eqn:F; [|reflexivity].
  apply find_some in F. destruct F as [I E].
  apply String.eqb_eq in E. destruct (U p I E).
Qed.

Lemma nth_error_map_indexed {A B : Type} (f : nat -> A -> B) (l : list A) :
  forall i k, nth_error (map_indexed f i l) k = option_map (f (i + k)) (nth_error l k).
Proof.
  induction l as [|x l IH]; intros i k.
  - destruct k; reflexivity.
  - destruct k; simpl.
    + now rewrite Nat.add_0_r.
    + rewrite IH. now rewrite Nat.add_succ_r.
Qed.

Lemma map_indexed_length {A B : Type} (f : nat -> A -> B) (l : list A) :
  forall i, List.length (map_indexed f i l) = List.length l.
Proof. induction l as [|x l IH]; intros i; simpl; [reflexivity | now rewrite IH]. Qed.

End HandlerFacts.

(** Every element of an array occurs in its [join]. *)
Lemma join_contains (sep : string) (l : list string) :
  forall k x, nth_error l k = Some x -> exists a b, join sep l = a ++ x ++ b.
Proof.
  assert (R : forall t : string, t ++ "" = t)
    by (induction t as [|c t IH]; simpl; [reflexivity | now rewrite IH]).
  induction l as [|y l IH]; intros k x E; [destruct k; discriminate E|].
  destruct k as [|k].
  - injection E as ->. destruct l as [|z l].
    + exists "", "". simpl. now rewrite R.
    + exists "", (sep ++ join sep (z :: l)). reflexivity.
  - simpl in E. destruct (IH k x E) as [a [b J]].
    destruct l as [|z l]; [destruct k; discriminate E|].
    exists (y ++ sep ++ a), b.
    change (join sep (y :: z :: l)) with (y ++ sep ++ join sep (z :: l)).
    rewrite J, !append_assoc_string. reflexivity.
Qed.

(** ** Switching and closing projects *)

(** The slip behind C4 in [switch_project]: [parseInt] reads the leading
    digits of any identifier, so a UUID that starts with the digits of an
    open position is taken for that position.  Here the identifier is the
    UUID of the second project and the first one gets selected. *)
Lemma switch_project_uuid_read_as_index :
  project_uuid 1 FakeHost.w0 = "1b81d77a"
  /\ fst (switch_project "1b81d77a" FakeHost.w0)
     = Ok "Switched to project: cube (UUID: 3f2a9c1e)".
Proof. split; reflexivity. Qed.

(** Leading white space of any kind is skipped before the index is read:
    a no-break space followed by [1] selects the first project. *)
Example switch_project_skips_no_break_space :
  fst (switch_project (String (ascii_of_nat 194) (String (ascii_of_nat 160) "1"))
                      FakeHost.w0)
  = Ok "Switched to project: cube (UUID: 3f2a9c1e)".
Proof. reflexivity. Qed.

(** C4, as stated, fails: [close_project] does not resolve by index (an
    in-range index is just an unknown UUID to it), and [switch_project]
    given an unknown UUID that begins with the digits of an open position
    selects that project and changes the active one. *)
Lemma C4_counterexample :
  (ModelProject_all FakeHost.w0 = [0; 1]
   /\ close_project (Some "1") false FakeHost.w0
      = (Throw "Project not found: 1", FakeHost.w0))
  /\ ((forall p, In p (ModelProject_all FakeHost.w0) ->
                 project_uuid p FakeHost.w0 <> "1c0ffee0")
      /\ fst (switch_project "1c0ffee0" FakeHost.w0)
         = Ok "Switched to project: cube (UUID: 3f2a9c1e)"
      /\ Project FakeHost.w0 = Some 1
      /\ Project (snd (switch_project "1c0ffee0" FakeHost.w0)) = Some 0).
Proof.
  repeat split; try reflexivity.
  intros p [<- | [<- | []]]; discriminate.
Qed.

(** C4 (amended): [switch_project] resolves its target by 1-based index,
    else by exact UUID; [close_project] resolves a given UUID by exact match
    only.  For every identifier (well-formed text) that equals the UUID of
    no open project, [switch_project] fails with a descriptive error and
    leaves the host unchanged when the identifier does not read as an
    in-range index, and [close_project] given that (non-empty) identifier
    fails with a descriptive error and leaves the host unchanged. *)
Theorem C4_unresolved_target_no_mutation
        {W : Type} `{API W} (w : W) (identifier : string) (force : bool) :
  well_formed identifier = true ->
  (forall p, In p (ModelProject_all w) -> project_uuid p w <> identifier) ->
  ((forall index, parseInt identifier = Some index ->
                  ~ (1 <= index <= Z.of_nat (List.length (ModelProject_all w)))%Z) ->
   exists msg,
     switch_project identifier w = (Throw msg, w)
     /\ (msg = "No projects are currently open."
         \/ msg = "Project not found: " ++ identifier
                  ++ ". Use 'list_open_projects' to see available projects."))
  /\ (identifier <> "" ->
      exists msg,
        close_project (Some identifier) force w = (Throw msg, w)
        /\ (msg = "No projects are currently open."
            \/ msg = "Project not found: " ++ identifier)).
Proof.
  intros _ U. pose proof (find_by_uuid_none w identifier U) as F. split.
  - intros R. rewrite switch_project_steps.
    destruct (ModelProject_all w) as [|p0 ps] eqn:A; [eauto|].
    assert (T : switch_target w identifier = None).
    { unfold switch_target. rewrite A.
      destruct (parseInt identifier) as [index|]; [|exact F].
      specialize (R index eq_refl).
      destruct ((1 <=? index) && (index <=? Z.of_nat (List.length (p0 :: ps))))%Z eqn:B;
        [|exact F].
      apply andb_true_iff in B. destruct B as [B1 B2].
      apply Z.leb_le in B1, B2. destruct (R (conj B1 B2)). }
    rewrite T. eauto.
  - intros N. rewrite (close_project_by_uuid_steps _ _ _ N).
    destruct (ModelProject_all w); [eauto|]. rewrite F. eauto.
Qed.

Lemma C4_unresolved_target_no_mutation_witness :
  (exists msg, switch_project "7" FakeHost.w0 = (Throw msg, FakeHost.w0)
               /\ (msg = "No projects are currently open."
                   \/ msg = "Project not found: " ++ "7"
                            ++ ". Use 'list_open_projects' to see available projects."))
  /\ (exists msg, close_project (Some "7") true FakeHost.w0 = (Throw msg, FakeHost.w0)
                  /\ (msg = "No projects are currently open."
                      \/ msg = "Project not found: " ++ "7")).
Proof.
  destruct (C4_unresolved_target_no_mutation FakeHost.w0 "7" true) as [S C].
  - reflexivity.
  - intros p [<- | [<- | []]]; discriminate.
  - split.
    + apply S. intros index E. injection E as <-. simpl. lia.
    + apply C. discriminate.
Defined.

(** ** Opening one file *)

(** C9: when the file exists and is read but [JSON.parse] rejects its
    content, [open_project] throws the parse error and the host is left as
    it was: no project has been created and no codec has run. *)
Theorem C9_open_project_parse_failure
        {W : Type} `{API W} (w : W) (path content : string) (node : FsNode) :
  fs_lookup path w = Some node ->
  fs_readFileSync path w = Ok content ->
  JSON_parse content = None ->
  open_project path w = (Throw ("Failed to parse file as JSON: " ++ path), w).
Proof.
  intros L R P. unfold open_project, bind, read, eval, throw.
  rewrite L, R, P. reflexivity.
Qed.

Lemma C9_open_project_parse_failure_witness :
  open_project "models/b.json" FakeHost.w0
  = (Throw ("Failed to parse file as JSON: " ++ "models/b.json"), FakeHost.w0).
Proof.
  apply (C9_open_project_parse_failure FakeHost.w0 "models/b.json" "not json" File);
    reflexivity.
Defined.

(** ** The listing and the index of [switch_project] *)


(** C10: for every in-range position [N], entry [N] of the listing is the
    line made of the decimal notation of [N], the marker, and the name (or
    "Untitled"), UUID and format of the project at position [N] of
    [ModelProject.all]; that line is part of the text [list_open_projects]
    returns; and [switch_project] given the decimal notation of [N] targets
    that same project, calls [select] on it and reports its name and
    UUID. *)
Theorem C10_listing_index_agrees {W : Type} `{API W} (w : W) (N : nat) :
  1 <= N <= List.length (ModelProject_all w) ->
  exists proj,
    nth_error (ModelProject_all w) (N - 1) = Some proj
    /\ (let line :=
          string_of_nat N ++ ". "
          ++ (if match Project w with
                 | Some active => Nat.eqb proj active
                 | None => false
                 end
              then active_marker else "  ")
          ++ or_untitled (project_name proj w)
          ++ " (UUID: " ++ project_uuid proj w ++ ", Format: "
          ++ match project_format_id proj w with Some id => id | None => "unknown" end
          ++ ")" in
        nth_error (projectList w) (N - 1) = Some line
        /\ exists before after,
            list_open_projects w = (Ok (before ++ line ++ after), w))
    /\ List.length (projectList w) = List.length (ModelProject_all w)
    /\ list_open_projects w
       = (Ok ("# Open Projects (" ++ string_of_nat (List.length (ModelProject_all w))
              ++ ")" ++ nl ++ nl ++ join nl (projectList w)), w)
    /\ switch_target w (string_of_nat N) = Some proj
    /\ switch_project (string_of_nat N) w
       = match select proj w with
         | (Ok _, w') =>
             (Ok ("Switched to project: " ++ or_untitled (project_name proj w')
                  ++ " (UUID: " ++ project_uuid proj w' ++ ")"), w')
         | (Throw msg, w') => (Throw msg, w')
         end.
Proof.
  intros [L1 L2].
  destruct (nth_error (ModelProject_all w) (N - 1)) as [proj|] eqn:E.
  2:{ apply nth_error_None in E. lia. }
  assert (T : switch_target w (string_of_nat N) = Some proj).
  { unfold switch_target. rewrite parseInt_string_of_nat.
    replace ((1 <=? Z.of_nat N) && (Z.of_nat N <=? Z.of_nat (List.length (ModelProject_all w))))%Z
      with true by (symmetry; apply andb_true_iff; split; apply Z.leb_le; lia).
    replace (Z.to_nat (Z.of_nat N - 1)) with (N - 1) by lia. exact E. }
  assert (Line : nth_error (projectList w) (N - 1) = Some (project_line w (N - 1) proj)).
  { unfold projectList. rewrite nth_error_map_indexed, E. reflexivity. }
  assert (Text : list_open_projects w
                 = (Ok ("# Open Projects ("
                        ++ string_of_nat (List.length (ModelProject_all w))
                        ++ ")" ++ nl ++ nl ++ join nl (projectList w)), w)).
  { unfold list_open_projects.
    destruct (ModelProject_all w); [simpl in L2; lia | reflexivity]. }
  exists proj. split; [reflexivity|]. split; [|split; [|split; [|split]]].
  - cbv zeta. unfold project_line in Line.
    replace (N - 1 + 1) with N in Line by lia. split; [exact Line|].
    destruct (join_contains nl _ _ _ Line) as [a [b J]].
    exists ("# Open Projects (" ++ string_of_nat (List.length (ModelProject_all w))
            ++ ")" ++ nl ++ nl ++ a), b.
    rewrite Text, J, !append_assoc_string. reflexivity.
  - apply map_indexed_length.
  - exact Text.
  - exact T.
  - rewrite switch_project_steps, T.
    destruct (ModelProject_all w); [simpl in L2; lia | reflexivity].
Qed.

Lemma C10_listing_index_agrees_witness :
  exists proj,
    nth_error (projectList FakeHost.w0) (2 - 1)
    = Some ("2. " ++ active_marker ++ "Untitled (UUID: 1b81d77a, Format: unknown)")
    /\ switch_target FakeHost.w0 (string_of_nat 2) = Some proj
    /\ project_uuid proj FakeHost.w0 = "1b81d77a".
Proof.
  destruct (C10_listing_index_agrees FakeHost.w0 2) as [proj [P [[L _] [_ [_ [T _]]]]]].
  - simpl. lia.
  - injection P as <-. exists 1. repeat split; assumption.
Defined.

(** ** The batch opener *)

Section BatchFacts.
Context {W : Type} `{API W}.

(** One iteration always completes, whatever fails inside it, and records
    exactly one outcome for its file. *)
Lemma open_file_outcome (filePath : string) (results errors : list string) (w : W) :
  exists o w',
    open_file filePath (results, errors) w
    = (Ok ((results ++ successes [o])%list, (errors ++ failures [o])%list), w')
    /\ outcome_of filePath o.
Proof.
  unfold open_file, try_catch, bind, eval, read, ret, push.
  assert (S : forall (e : string) (w' : W),
             exists (o : outcome) (w'' : W),
               (@Ok (list string * list string) (results, (errors ++ [e])%list), w')
               = (Ok ((results ++ successes [o])%list, (errors ++ failures [o])%list), w'')
               /\ o = inr e).
  { intros e w'. exists (inr e), w'. simpl. now rewrite app_nil_r. }
  assert (Fail : forall (e : string) (w' : W), outcome_of filePath (inr e) ->
             exists (o : outcome) (w'' : W),
               (@Ok (list string * list string) (results, (errors ++ [e])%list), w')
               = (Ok ((results ++ successes [o])%list, (errors ++ failures [o])%list), w'')
               /\ outcome_of filePath o).
  { intros e w' O. destruct (S e w') as [o [w'' [E ->]]]. eauto. }
  destruct (fs_readFileSync filePath w) as [content|msg].
  2:{ apply Fail. simpl. eauto. }
  destruct (JSON_parse content) as [parsed|].
  2:{ apply Fail. simpl. eauto. }
  destruct (resolve_from_folder (has_optifine_entity w) filePath parsed) as [[b|]|msg].
  - destruct (newProject (format b) w) as [[[]|msg] w1].
    + destruct (codec_parse (codec b) parsed filePath w1) as [[[]|msg] w2].
      * exists (inl (basename filePath)), w2. simpl. rewrite app_nil_r. auto.
      * apply Fail. simpl. eauto.
    + apply Fail. simpl. eauto.
  - apply Fail. simpl. eauto.
  - apply Fail. simpl. eauto.
Qed.

Lemma open_files_outcomes (projectFiles : list string) :
  forall (results errors : list string) (w : W),
  exists outcomes w',
    open_files projectFiles (results, errors) w
    = (Ok ((results ++ successes outcomes)%list, (errors ++ failures outcomes)%list), w')
    /\ Forall2 outcome_of projectFiles outcomes.
Proof.
  induction projectFiles as [|f rest IH]; intros results errors w.
  - exists [], w. simpl. unfold ret. rewrite !app_nil_r. auto.
  - destruct (open_file_outcome f results errors w) as [o [w1 [E O]]].
    destruct (IH (results ++ successes [o])%list (errors ++ failures [o])%list w1)
      as [os [w2 [E2 F]]].
    exists (o :: os), w2. split; [|now constructor].
    cbn [open_files]. unfold bind. rewrite E, E2.
    rewrite <- !app_assoc. destruct o; reflexivity.
Qed.

(** After any file the loop goes on with the remaining ones, from the
    arrays and the host state that file left. *)
Lemma open_files_continues (filePath : string) (rest : list string)
      (arrays : list string * list string) (w : W) :
  exists arrays1 w1,
    open_file filePath arrays w = (Ok arrays1, w1)
    /\ open_files (filePath :: rest) arrays w = open_files rest arrays1 w1.
Proof.
  destruct arrays as [results errors].
  destruct (open_file_outcome filePath results errors w) as [o [w1 [E _]]].
  eexists _, w1. split; [exact E|].
  cbn [open_files]. unfold bind. rewrite E. reflexivity.
Qed.

(** One iteration of the loop does what [file_run] says, and pushes the
    outcome to the array it belongs to. *)
Lemma open_file_run (filePath : string) (results errors : list string) (w : W) :
  exists o w',
    BatchRun.file_run w filePath o w'
    /\ open_file filePath (results, errors) w
       = (Ok ((results ++ successes [o])%list, (errors ++ failures [o])%list), w').
Proof.
  unfold open_file, try_catch, bind, eval, read, ret, push.
  destruct (fs_readFileSync filePath w) as [content|msg] eqn:R.
  2:{ eexists (inr _), w. split; [eapply BatchRun.run_unreadable; eauto|].
      simpl. now rewrite app_nil_r. }
  destruct (JSON_parse content) as [parsed|] eqn:P.
  2:{ eexists (inr _), w. split; [eapply BatchRun.run_not_json; eauto|].
      simpl. now rewrite app_nil_r. }
  destruct (resolve_from_folder (has_optifine_entity w) filePath parsed)
    as [[b|]|msg] eqn:T.
  - destruct (newProject (format b) w) as [[[]|msg] w1] eqn:N.
    + destruct (codec_parse (codec b) parsed filePath w1) as [[[]|msg] w2] eqn:C.
      * eexists (inl _), w2. split; [eapply BatchRun.run_opened; eauto|].
        simpl. now rewrite app_nil_r.
      * eexists (inr _), w2. split; [eapply BatchRun.run_codec_throws; eauto|].
        simpl. now rewrite app_nil_r.
    + eexists (inr _), w1. split; [eapply BatchRun.run_create_throws; eauto|].
      simpl. now rewrite app_nil_r.
  - eexists (inr _), w. split; [eapply BatchRun.run_no_optifine; eauto|].
    simpl. now rewrite app_nil_r.
  - eexists (inr _), w. split; [eapply BatchRun.run_chain_throws; eauto|].
    simpl. now rewrite app_nil_r.
Qed.

Lemma open_files_run (projectFiles : list string) :
  forall (results errors : list string) (w : W),
  exists outcomes w',
    BatchRun.batch_run w projectFiles outcomes w'
    /\ open_files projectFiles (results, errors) w
       = (Ok ((results ++ successes outcomes)%list,
              (errors ++ failures outcomes)%list), w').
Proof.
  induction projectFiles as [|f rest IH]; intros results errors w.
  - exists [], w. split; [constructor|]. simpl. unfold ret. now rewrite !app_nil_r.
  - destruct (open_file_run f results errors w) as [o [w1 [F E]]].
    destruct (IH (results ++ successes [o])%list (errors ++ failures [o])%list w1)
      as [os [w2 [B E2]]].
    exists (o :: os), w2. split; [econstructor; eauto|].
    cbn [open_files]. unfold bind. rewrite E, E2.
    rewrite <- !app_assoc. destruct o; reflexivity.
Qed.

Lemma batch_run_length {w w' : W} {projectFiles : list string} {outcomes : list outcome} :
  BatchRun.batch_run w projectFiles outcomes w' ->
  List.length outcomes = List.length projectFiles.
Proof. induction 1; simpl; congruence. Qed.

Lemma outcomes_count (outcomes : list outcome) :
  List.length (successes outcomes) + List.length (failures outcomes)
  = List.length outcomes.
Proof.
  induction outcomes as [|[name|e] r IH]; simpl; lia.
Qed.

End BatchFacts.

(** The counts and the two enumerations in the report. *)
Lemma report_layout (folder : string) (results errors : list string) :
  report folder results errors
  = ("Opened " ++ string_of_nat (List.length results) ++ " project(s) from: "
     ++ folder ++ nl)
    ++ match results with
       | [] => ""
       | _ => nl ++ "Opened files:" ++ nl ++ join nl (map (fun f => "  - " ++ f) results)
       end
    ++ match errors with
       | [] => ""
       | _ => nl ++ nl ++ "Errors (" ++ string_of_nat (List.length errors) ++ "):"
              ++ nl ++ join nl (map (fun e => "  - " ++ e) errors)
       end.
Proof.
  assert (R : forall s : string, s ++ "" = s)
    by (induction s as [|c s IH]; simpl; [reflexivity | now rewrite IH]).
  unfold report.
  destruct results as [|r rs], errors as [|e es];
    rewrite ?R, ?append_assoc_string; reflexivity.
Qed.

(** C5: the loop over the discovered files always runs to its end, and
    every file gets exactly one outcome, in the order of the files, each
    from the host state the file before left: a file that cannot be read or
    parsed, has no codec, or whose opening throws is recorded in [errors]
    with its path and the reason, and does not stop the loop; a file is
    recorded in [results], under its base name, exactly when [newProject]
    and [codec.parse] both returned for it.  The tool then returns the text
    that gives the number of successes, lists their names, and, when there
    are failures, gives their number and lists them. *)
Theorem C5_batch_accounts_for_every_file
        {W : Type} `{API W} (w : W) (projectFiles : list string) :
  exists outcomes w',
    BatchRun.batch_run w projectFiles outcomes w'
    /\ open_files projectFiles ([], []) w
       = (Ok (successes outcomes, failures outcomes), w')
    /\ List.length (successes outcomes) + List.length (failures outcomes)
       = List.length projectFiles
    /\ (forall path_join folder recursive extensions entries,
           fs_lookup folder w = Some (Dir entries) ->
           scanDirectory path_join recursive
             (match extensions with Some l => l | None => PROJECT_EXTENSIONS end)
             folder entries [] = projectFiles ->
           projectFiles <> [] ->
           open_projects_from_folder path_join folder recursive extensions w
           = (Ok (("Opened " ++ string_of_nat (List.length (successes outcomes))
                   ++ " project(s) from: " ++ folder ++ nl)
                  ++ match successes outcomes with
                     | [] => ""
                     | _ => nl ++ "Opened files:" ++ nl
                            ++ join nl (map (fun f => "  - " ++ f) (successes outcomes))
                     end
                  ++ match failures outcomes with
                     | [] => ""
                     | _ => nl ++ nl ++ "Errors ("
                            ++ string_of_nat (List.length (failures outcomes)) ++ "):"
                            ++ nl
                            ++ join nl (map (fun e => "  - " ++ e) (failures outcomes))
                     end), w')).
Proof.
  destruct (open_files_run projectFiles [] [] w) as [outcomes [w' [B E]]].
  simpl in E. exists outcomes, w'. repeat split; try assumption.
  - rewrite outcomes_count. exact (batch_run_length B).
  - intros path_join folder recursive extensions entries L S N.
    rewrite <- report_layout.
    unfold open_projects_from_folder, bind, read, ret. rewrite L, S.
    destruct projectFiles as [|f fs]; [congruence|].
    rewrite E. reflexivity.
Qed.

Lemma C5_batch_accounts_for_every_file_witness :
  exists w',
    open_projects_from_folder FakeHost.simple_join "models" false None FakeHost.w0
    = (Ok ("Opened 2 project(s) from: models" ++ nl ++ nl
           ++ "Opened files:" ++ nl ++ "  - a.geo.json" ++ nl ++ "  - c.bbmodel"
           ++ nl ++ nl ++ "Errors (1):" ++ nl ++ "  - Failed to parse: models/b.json"),
       w')
    /\ ModelProject_all w' = [0; 1; 2; 3].
Proof.
  destruct (C5_batch_accounts_for_every_file FakeHost.w0
              ["models/a.geo.json"; "models/b.json"; "models/c.bbmodel"])
    as [outcomes [w' [_ [O [_ T]]]]].
  exists w'.
  rewrite (T FakeHost.simple_join "models" false None
             [ ("a.geo.json", File); ("b.json", File); ("c.bbmodel", File);
               ("notes.txt", File); ("sub", Dir [ ("d.json", File) ]) ]);
    [| reflexivity | reflexivity | discriminate].
  assert (Run : exists w'',
             open_files ["models/a.geo.json"; "models/b.json"; "models/c.bbmodel"]
                        ([], []) FakeHost.w0
             = (Ok (["a.geo.json"; "c.bbmodel"], ["Failed to parse: models/b.json"]), w'')
             /\ ModelProject_all w'' = [0; 1; 2; 3])
    by (eexists; split; reflexivity).
  destruct Run as [w'' [Run Open]]. rewrite Run in O.
  injection O as S F <-. rewrite <- S, <- F. split; [reflexivity | exact Open].
Defined.

(** The example of C5: three matching files, the second of which is not
    JSON; the report lists two successes and one failure, and the file after
    the bad one has been opened. *)
Example batch_three_files_one_invalid :
  scanDirectory FakeHost.simple_join false PROJECT_EXTENSIONS "models"
                [ ("a.geo.json", File); ("b.json", File); ("c.bbmodel", File);
                  ("notes.txt", File); ("sub", Dir [ ("d.json", File) ]) ] []
  = ["models/a.geo.json"; "models/b.json"; "models/c.bbmodel"]
  /\ fst (open_projects_from_folder FakeHost.simple_join "models" false None FakeHost.w0)
     = Ok (report "models" ["a.geo.json"; "c.bbmodel"] ["Failed to parse: models/b.json"])
  /\ report "models" ["a.geo.json"; "c.bbmodel"] ["Failed to parse: models/b.json"]
     = "Opened 2 project(s) from: models" ++ nl ++ nl
       ++ "Opened files:" ++ nl ++ "  - a.geo.json" ++ nl ++ "  - c.bbmodel"
       ++ nl ++ nl ++ "Errors (1):" ++ nl ++ "  - Failed to parse: models/b.json".
Proof. repeat split; reflexivity. Qed.


(* ================================================================== *)
(** * Further properties of the resolver *)
(* ================================================================== *)

(** X1: a truthy format tag ([meta.model_format]) decides alone: whatever the
    path and the rest of the content, both openers bind the file to the
    native project codec with the tagged format. *)
Theorem format_tag_takes_precedence
        (optifine : bool) (path : string) (parsed : json) (tag : option json) :
  model_format_tag parsed = Ok tag ->
  truthy tag = true ->
  resolve_open_project optifine path parsed = Ok (native_binding tag)
  /\ resolve_from_folder optifine path parsed = Ok (Resolved (native_binding tag)).
Proof.
  intros T Y. unfold resolve_open_project, resolve_from_folder. rewrite T.
  split.
  - destruct (String.eqb _ ".bbmodel"); cbn [rbind]; rewrite ?Y; reflexivity.
  - destruct (endsWith path ".bbmodel"); cbn [rbind]; rewrite ?Y; reflexivity.
Qed.

Lemma format_tag_takes_precedence_witness :
  resolve_open_project false "x.jem"
    (JObject [("meta", JObject [("model_format", JString "bedrock")])])
  = Ok (native_binding (Some (JString "bedrock"))).
Proof.
  exact (proj1 (format_tag_takes_precedence false "x.jem"
                  (JObject [("meta", JObject [("model_format", JString "bedrock")])])
                  (Some (JString "bedrock")) eq_refl eq_refl)).
Defined.

(** X2: without a format tag and a [.bbmodel] name, a geometry marker in the
    content ([minecraft:geometry] or [format_version]) selects the Bedrock
    binding for every extension: it outranks the block-model markers of a
    [.json] file and the OptiFine rule, so such a [.jem] file never raises
    the missing-codec error. *)
Theorem geometry_marker_outranks_extension
        (optifine : bool) (path : string) (parsed : json) (tag : option json) :
  model_format_tag parsed = Ok tag -> truthy tag = false ->
  geometry_marker parsed = Ok true ->
  (String.eqb (toLowerCase (extname path)) ".bbmodel" = false ->
   resolve_open_project optifine path parsed = Ok bedrock_binding)
  /\ (endsWith path ".bbmodel" = false ->
      resolve_from_folder optifine path parsed = Ok (Resolved bedrock_binding)).
Proof.
  intros T F G. unfold resolve_open_project, resolve_from_folder.
  rewrite T, G. split; intros ->; cbn [rbind]; rewrite F.
  - destruct (String.eqb _ ".geo.json"); reflexivity.
  - destruct (endsWith path ".geo.json"); reflexivity.
Qed.

Lemma geometry_marker_outranks_extension_witness :
  resolve_open_project false "entity.jem"
    (JObject [("format_version", JString "1.12.0"); ("elements", JArray [])])
  = Ok bedrock_binding.
Proof.
  exact (proj1 (geometry_marker_outranks_extension false "entity.jem"
                  (JObject [("format_version", JString "1.12.0"); ("elements", JArray [])])
                  None eq_refl eq_refl eq_refl) eq_refl).
Defined.

(** X3: the two openers resolve alike: on a path that does not end in
    [.geo.json] and on which the extension test and the suffix test for
    [.bbmodel] agree, [open_project] binds what the batch opener binds, and
    throws where the batch opener records the missing OptiFine codec or
    throws itself. *)
Theorem resolvers_agree (optifine : bool) (path : string) (parsed : json) :
  endsWith path ".geo.json" = false ->
  String.eqb (toLowerCase (extname path)) ".bbmodel" = endsWith path ".bbmodel" ->
  resolve_open_project optifine path parsed
  = match resolve_from_folder optifine path parsed with
    | Ok (Resolved b) => Ok b
    | Ok OptifineMissing => Throw "OptiFine codec is not available."
    | Throw msg => Throw msg
    end.
Proof.
  intros G B. unfold resolve_open_project, resolve_from_folder.
  rewrite extname_never_geo_json, G, B.
  destruct (model_format_tag parsed) as [tag|m]; cbn [rbind].
  2:{ destruct (endsWith path ".bbmodel"); reflexivity. }
  destruct (endsWith path ".bbmodel"); cbn [rbind]; [reflexivity|].
  destruct (truthy tag); [reflexivity|].
  destruct (geometry_marker parsed) as [[|]|m]; cbn [rbind]; try reflexivity.
  destruct (String.eqb _ ".json"); cbn [rbind].
  - destruct (block_model_marker parsed) as [[|]|m]; cbn [rbind]; try reflexivity.
    destruct (_ || _); [destruct optifine|]; reflexivity.
  - destruct (_ || _); [destruct optifine|]; reflexivity.
Qed.

Lemma resolvers_agree_witness :
  resolve_open_project false "cube.json" (JObject [("textures", JObject [])])
  = match resolve_from_folder false "cube.json" (JObject [("textures", JObject [])]) with
    | Ok (Resolved b) => Ok b
    | Ok OptifineMissing => Throw "OptiFine codec is not available."
    | Throw msg => Throw msg
    end.
Proof.
  apply (resolvers_agree false "cube.json" (JObject [("textures", JObject [])]));
    reflexivity.
Defined.

(** X4: on a content other than [null], [open_project]'s resolver throws the
    missing-codec error exactly when the host has no OptiFine codec, the
    extension is [.jem] or [.jpm], and the content has neither a truthy
    format tag nor a geometry marker. *)
Theorem optifine_error_exactly (optifine : bool) (path : string) (parsed : json) :
  parsed <> JNull ->
  let ext := toLowerCase (extname path) in
  resolve_open_project optifine path parsed = Throw "OptiFine codec is not available."
  <-> optifine = false
      /\ (String.eqb ext ".jem" || String.eqb ext ".jpm") = true
      /\ (exists tag, model_format_tag parsed = Ok tag /\ truthy tag = false)
      /\ geometry_marker parsed = Ok false.
Proof.
  intros N ext.
  destruct (model_format_tag_not_null parsed N) as [tag T].
  destruct (geometry_marker_not_null parsed N) as [g G].
  destruct (block_model_marker_not_null parsed N) as [j J].
  unfold resolve_open_project. fold ext.
  rewrite (extname_never_geo_json path : String.eqb ext ".geo.json" = false).
  rewrite T, G, J. split.
  - intros E.
    destruct (String.eqb ext ".bbmodel"); cbn [rbind] in E; [discriminate E|].
    destruct (truthy tag) eqn:Y; [discriminate E|].
    destruct g; [discriminate E|].
    assert (O : (String.eqb ext ".jem" || String.eqb ext ".jpm") = true
                /\ optifine = false).
    { destruct (String.eqb ext ".json"); cbn [rbind] in E;
        [destruct j; [discriminate E|]|];
        destruct (String.eqb ext ".jem" || String.eqb ext ".jpm");
        try discriminate E; destruct optifine; try discriminate E; auto. }
    destruct O as [O1 O2]. repeat split; eauto.
  - intros [-> [O [[tag' [T' Y]] G']]].
    assert (tag' = tag) by congruence. subst tag'.
    assert (g = false) by congruence. subst g.
    assert (X : String.eqb ext ".bbmodel" = false /\ String.eqb ext ".json" = false).
    { apply orb_true_iff in O. destruct O as [O|O]; apply String.eqb_eq in O;
        rewrite O; split; reflexivity. }
    destruct X as [-> ->]. cbn [rbind]. rewrite Y, O. reflexivity.
Qed.

Lemma optifine_error_exactly_witness :
  resolve_open_project false "wolf.jpm" (JObject [("elements", JArray [])])
  = Throw "OptiFine codec is not available.".
Proof.
  apply (optifine_error_exactly false "wolf.jpm" (JObject [("elements", JArray [])])).
  - discriminate.
  - repeat split; try reflexivity. exists None. split; reflexivity.
Defined.

(** X5: neither opener ever binds a file to the OptiFine codec in a host that
    does not expose it, and it binds to it only for [.jem] and [.jpm]. *)
Theorem optifine_binding_only_when_available
        (optifine : bool) (path : string) (parsed : json) (b : FormatBinding) :
  resolve_open_project optifine path parsed = Ok b
  \/ resolve_from_folder optifine path parsed = Ok (Resolved b) ->
  codec b = Codecs_optifine_entity ->
  optifine = true
  /\ (String.eqb (toLowerCase (extname path)) ".jem"
      || String.eqb (toLowerCase (extname path)) ".jpm") = true.
Proof.
  unfold resolve_open_project, resolve_from_folder.
  destruct (model_format_tag parsed) as [tag|m],
           (geometry_marker parsed) as [g|m'],
           (block_model_marker parsed) as [j|m''];
    cbn [rbind];
    intros [E|E] C; revert E;
    split_ifs; intros E; try discriminate E;
    injection E as <-; try discriminate C; auto.
Qed.

Lemma optifine_binding_only_when_available_witness :
  true = true
  /\ (String.eqb (toLowerCase (extname "wolf.jem")) ".jem"
      || String.eqb (toLowerCase (extname "wolf.jem")) ".jpm") = true.
Proof.
  apply (optifine_binding_only_when_available true "wolf.jem" (JObject [])
           optifine_binding).
  - left. reflexivity.
  - reflexivity.
Defined.

(* ================================================================== *)
(** * Further properties of the scanner *)
(* ================================================================== *)

Lemma lower_ascii_idempotent (c : ascii) : lower_ascii (lower_ascii c) = lower_ascii c.
Proof. destruct c as [[] [] [] [] [] [] [] []]; reflexivity. Qed.

Lemma toLowerCase_idempotent (s : string) : toLowerCase (toLowerCase s) = toLowerCase s.
Proof.
  induction s as [|c s IH]; simpl; [reflexivity|].
  now rewrite lower_ascii_idempotent, IH.
Qed.

Lemma includes_In (arr : list string) (x : string) :
  includes arr x = true <-> In x arr.
Proof.
  unfold includes. rewrite existsb_exists. split.
  - intros [y [I E]]. apply String.eqb_eq in E. now subst.
  - intros I. exists x. split; [exact I | apply String.eqb_refl].
Qed.

(** X7: when [".json"] is allowed, the special case for [.geo.json] changes
    nothing: a name is accepted exactly when its lower-cased last dot
    segment is allowed.  This is so for the default extension set. *)
Theorem geo_json_case_redundant_with_json (allowedExtensions : list string) (name : string) :
  includes allowedExtensions ".json" = true ->
  accepted allowedExtensions name
  = includes allowedExtensions (toLowerCase (extname name)).
Proof.
  intros J. unfold accepted.
  destruct (endsWith name ".geo.json") eqn:E; [|reflexivity].
  destruct (includes allowedExtensions ".geo.json"); [|reflexivity].
  simpl. now rewrite (extname_geo_json _ E), J.
Qed.

Lemma geo_json_case_redundant_with_json_witness :
  accepted PROJECT_EXTENSIONS "a.geo.json"
  = includes PROJECT_EXTENSIONS (toLowerCase (extname "a.geo.json")).
Proof.
  apply (geo_json_case_redundant_with_json PROJECT_EXTENSIONS "a.geo.json").
  reflexivity.
Defined.

(** X8: the extension of a name is lower-cased before it is looked up, the
    entries of the filter are not: a filter all of whose entries contain an
    upper-case letter (such as [".JSON"]) accepts no file at all. *)
Theorem upper_case_filter_accepts_nothing (allowedExtensions : list string) (name : string) :
  (forall e, In e allowedExtensions -> toLowerCase e <> e) ->
  accepted allowedExtensions name = false.
Proof.
  intros U. unfold accepted.
  assert (G : includes allowedExtensions ".geo.json" = false).
  { destruct (includes allowedExtensions ".geo.json") eqn:I; [|reflexivity].
    apply includes_In in I. destruct (U _ I). reflexivity. }
  rewrite G, andb_false_r.
  destruct (includes allowedExtensions (toLowerCase (extname name))) eqn:I;
    [|reflexivity].
  apply includes_In in I. destruct (U _ I). apply toLowerCase_idempotent.
Qed.

Lemma upper_case_filter_accepts_nothing_witness :
  accepted [".JSON"; ".BBmodel"] "cube.JSON" = false.
Proof.
  apply (upper_case_filter_accepts_nothing [".JSON"; ".BBmodel"] "cube.JSON").
  intros e [<- | [<- | []]]; discriminate.
Defined.

(** X9: turning [recursive] on never loses a file. *)
Theorem recursive_scan_discovers_more
        (path_join : string -> string -> string) (allowedExtensions : list string)
        (dir full : string) (entries : list (string * FsNode)) :
  In full (scanDirectory path_join false allowedExtensions dir entries []) ->
  In full (scanDirectory path_join true allowedExtensions dir entries []).
Proof.
  rewrite !scanDirectory_spec. intros [name [L A]]. exists name. split; [|exact A].
  apply located_flat in L. destruct L as [I ->]. now apply located_here.
Qed.

Lemma recursive_scan_discovers_more_witness :
  In "models/a.geo.json"
     (scanDirectory FakeHost.simple_join true PROJECT_EXTENSIONS "models"
                    [("a.geo.json", File); ("sub", Dir [("d.json", File)])] []).
Proof.
  apply (recursive_scan_discovers_more FakeHost.simple_join PROJECT_EXTENSIONS "models").
  simpl. auto.
Defined.

(** X10: the scan follows the listing: scanning a listing made of two parts
    gives the files of the first part, then those of the second; files are
    discovered in listing order, a sub-directory's files in its place. *)
Theorem scan_follows_listing_order
        (path_join : string -> string -> string) (recursive : bool)
        (allowedExtensions : list string) (dir : string)
        (entries1 entries2 : list (string * FsNode)) :
  scanDirectory path_join recursive allowedExtensions dir (entries1 ++ entries2) []
  = (scanDirectory path_join recursive allowedExtensions dir entries1 []
     ++ scanDirectory path_join recursive allowedExtensions dir entries2 [])%list.
Proof.
  induction entries1 as [|e entries1 IH].
  - reflexivity.
  - rewrite <- app_comm_cons, !scanDirectory_cons, IH. apply app_assoc.
Qed.

(* ================================================================== *)
(** * Further properties of the project tools *)
(* ================================================================== *)

Section ToolFacts.
Context {W : Type} `{API W}.

(** X11: [open_project] leaves the host as it found it whenever it fails before
    the project is created: the file is missing, cannot be read, is not
    JSON, or the resolver throws (a [null] document, a [.jem] file without
    the OptiFine codec). *)
Theorem open_project_untouched_on_early_failure (w : W) (path : string) :
  fs_lookup path w = None
  \/ (exists msg, fs_readFileSync path w = Throw msg)
  \/ (exists content,
         fs_readFileSync path w = Ok content
         /\ (JSON_parse content = None
             \/ exists parsed msg,
                 JSON_parse content = Some parsed
                 /\ resolve_open_project (has_optifine_entity w) path parsed
                    = Throw msg)) ->
  exists msg, open_project path w = (Throw msg, w).
Proof.
  unfold open_project, bind, read, eval, throw.
  intros [L | X].
  - rewrite L. eauto.
  - destruct (fs_lookup path w); [|eauto].
    destruct X as [[msg R] | [content [R [P | [parsed [msg [P T]]]]]]];
      rewrite R; [eauto | |]; rewrite P; [eauto|].
    rewrite T. eauto.
Qed.

(** X12: once the binding is resolved, [open_project] creates a project of the
    resolved format and then lets the resolved codec parse the content into
    it.  Nothing is undone: when the codec throws, the error is passed on
    and the host keeps the project just created.  On success the message
    carries the UUID of the project that is active after parsing. *)
Theorem open_project_creates_then_parses
        (w : W) (path content : string) (node : FsNode) (parsed : json)
        (b : FormatBinding) :
  fs_lookup path w = Some node ->
  fs_readFileSync path w = Ok content ->
  JSON_parse content = Some parsed ->
  resolve_open_project (has_optifine_entity w) path parsed = Ok b ->
  open_project path w
  = match newProject (format b) w with
    | (Throw msg, w1) => (Throw msg, w1)
    | (Ok _, w1) =>
        match codec_parse (codec b) parsed path w1 with
        | (Throw msg, w2) => (Throw msg, w2)
        | (Ok _, w2) =>
            (Ok ("Opened project: " ++ path ++ " (UUID: " ++ active_uuid w2 ++ ")"), w2)
        end
    end.
Proof.
  intros L R P T. unfold open_project, bind, read, eval, ret.
  rewrite L, R, P, T.
  destruct (newProject (format b) w) as [[[]|msg] w1]; [|reflexivity].
  destruct (codec_parse (codec b) parsed path w1) as [[[]|msg] w2]; reflexivity.
Qed.

(** X13: a document that is the JSON value [null] cannot be opened: reading
    [parsed.meta] throws.  [open_project] fails with that TypeError before
    touching the host, whatever the file is called; the batch opener records
    it as an error for the file and goes on. *)
Theorem null_document_rejected (w : W) (path content : string) (node : FsNode) :
  fs_readFileSync path w = Ok content ->
  JSON_parse content = Some JNull ->
  (fs_lookup path w = Some node ->
   open_project path w = (Throw (TypeError_null "meta"), w))
  /\ (forall results errors,
         open_file path (results, errors) w
         = (Ok (results,
                push errors ("Error opening " ++ path ++ ": " ++ TypeError_null "meta")),
            w)).
Proof.
  intros R P.
  assert (T : forall o, resolve_open_project o path JNull = Throw (TypeError_null "meta")).
  { intros o. unfold resolve_open_project.
    destruct (String.eqb _ ".bbmodel"); reflexivity. }
  assert (T' : forall o, resolve_from_folder o path JNull = Throw (TypeError_null "meta")).
  { intros o. unfold resolve_from_folder.
    destruct (endsWith path ".bbmodel"); reflexivity. }
  split.
  - intros L. unfold open_project, bind, read, eval. rewrite L, R, P, T. reflexivity.
  - intros results errors.
    unfold open_file, try_catch, bind, read, eval, ret. rewrite R, P, T'. reflexivity.
Qed.

(** X14: a batch of files none of which is JSON opens nothing: the host is left
    unchanged, [results] gets no entry, and [errors] gets one parse-failure
    message per file, in order. *)
Theorem batch_of_unparseable_files (w : W) (projectFiles : list string) :
  (forall f, In f projectFiles ->
             exists content, fs_readFileSync f w = Ok content
                             /\ JSON_parse content = None) ->
  forall results errors,
    open_files projectFiles (results, errors) w
    = (Ok (results,
           (errors ++ map (fun f => ("Failed to parse: " ++ f)%string) projectFiles)%list),
       w).
Proof.
  induction projectFiles as [|f rest IH]; intros U results errors.
  - simpl. unfold ret. now rewrite app_nil_r.
  - destruct (U f (or_introl eq_refl)) as [content [R P]].
    cbn [open_files]. unfold bind at 1.
    assert (E : open_file f (results, errors) w
                = (Ok (results, push errors ("Failed to parse: " ++ f)), w)).
    { unfold open_file, try_catch, bind, eval, ret. rewrite R, P. reflexivity. }
    rewrite E, IH by (intros g I; apply U; now right).
    unfold push. simpl. now rewrite <- app_assoc.
Qed.

(** X15: the folder opener touches nothing when there is nothing to open: the
    folder is missing, the path is not a directory, or no regular file the
    scan reaches is accepted by the filter (in particular with an empty
    [extensions] list). *)
Theorem folder_opener_nothing_to_open
        (w : W) (path_join : string -> string -> string) (folder : string)
        (recursive : bool) (extensions : option (list string)) :
  (fs_lookup folder w = None ->
   open_projects_from_folder path_join folder recursive extensions w
   = (Throw ("Folder not found: " ++ folder), w))
  /\ (fs_lookup folder w = Some File \/ fs_lookup folder w = Some Other ->
      open_projects_from_folder path_join folder recursive extensions w
      = (Throw ("Path is not a directory: " ++ folder), w))
  /\ (forall entries,
         fs_lookup folder w = Some (Dir entries) ->
         (forall name full,
             located path_join recursive folder entries name full ->
             accepted (match extensions with Some l => l | None => PROJECT_EXTENSIONS end)
                      name = false) ->
         open_projects_from_folder path_join folder recursive extensions w
         = (Ok ("No project files found in: " ++ folder), w)).
Proof.
  unfold open_projects_from_folder, bind, read, throw, ret. repeat split.
  - intros ->. reflexivity.
  - intros [-> | ->]; reflexivity.
  - intros entries -> N.
    destruct (scanDirectory _ _ _ folder entries []) as [|full l] eqn:S; [reflexivity|].
    assert (I : In full (scanDirectory path_join recursive
                  (match extensions with Some l => l | None => PROJECT_EXTENSIONS end)
                  folder entries [])) by (rewrite S; now left).
    apply scanDirectory_spec in I. destruct I as [name [L A]].
    rewrite (N _ _ L) in A. discriminate A.
Qed.

Lemma find_first (identifier : string) (w : W) (l : list ModelProject) (p : ModelProject) :
  In p l -> project_uuid p w = identifier ->
  exists q before after,
    find (fun x => String.eqb (project_uuid x w) identifier) l = Some q
    /\ l = (before ++ q :: after)%list
    /\ project_uuid q w = identifier
    /\ (forall x, In x before -> project_uuid x w <> identifier).
Proof.
  induction l as [|x l IH]; intros I U; [destruct I|].
  simpl. destruct (String.eqb (project_uuid x w) identifier) eqn:E.
  - apply String.eqb_eq in E. exists x, [], l. repeat split; auto; intros y [].
  - apply String.eqb_neq in E. destruct I as [-> | I]; [congruence|].
    destruct (IH I U) as [q [before [after [F [-> [Q B]]]]]].
    exists q, (x :: before), after. repeat split; auto;
      intros y [<- | J]; auto.
Qed.

(** X16: [switch_project] never selects anything but an open project: it either
    fails and leaves the host unchanged, or calls [select] on a member of
    [ModelProject.all] and reports the name and UUID that project has after
    the call. *)
Theorem switch_project_selects_an_open_project (w : W) (identifier : string) :
  (exists msg, switch_project identifier w = (Throw msg, w))
  \/ (exists target,
         In target (ModelProject_all w)
         /\ switch_project identifier w
            = match select target w with
              | (Ok _, w') =>
                  (Ok ("Switched to project: " ++ or_untitled (project_name target w')
                       ++ " (UUID: " ++ project_uuid target w' ++ ")"), w')
              | (Throw msg, w') => (Throw msg, w')
              end).
Proof.
  rewrite switch_project_steps.
  destruct (ModelProject_all w) as [|p0 ps] eqn:A; [left; eauto|].
  destruct (switch_target w identifier) as [target|] eqn:T; [|left; eauto].
  right. exists target. split; [|reflexivity].
  unfold switch_target, find_by_uuid in T. rewrite A in T.
  destruct (parseInt identifier) as [index|].
  - destruct (_ && _)%Z.
    + eapply nth_error_In; eauto.
    + apply find_some in T. tauto.
  - apply find_some in T. tauto.
Qed.

(** X17: an identifier (well-formed text) that does not read as an in-range
    index and is the UUID of an open project makes [switch_project] target
    the first open project with exactly that UUID. *)
Theorem switch_project_by_uuid (w : W) (identifier : string) (p : ModelProject) :
  well_formed identifier = true ->
  (forall index, parseInt identifier = Some index ->
                 ~ (1 <= index <= Z.of_nat (List.length (ModelProject_all w)))%Z) ->
  In p (ModelProject_all w) ->
  project_uuid p w = identifier ->
  exists target before after,
    switch_target w identifier = Some target
    /\ ModelProject_all w = (before ++ target :: after)%list
    /\ project_uuid target w = identifier
    /\ (forall x, In x before -> project_uuid x w <> identifier).
Proof.
  intros _ R I U.
  destruct (find_first identifier w _ p I U) as [q [before [after [F X]]]].
  exists q, before, after. split; [|exact X].
  unfold switch_target, find_by_uuid.
  destruct (parseInt identifier) as [index|]; [|exact F].
  specialize (R index eq_refl).
  destruct ((1 <=? index) && (index <=? Z.of_nat (List.length (ModelProject_all w))))%Z
    eqn:B; [|exact F].
  apply andb_true_iff in B. destruct B as [B1 B2].
  apply Z.leb_le in B1, B2. destruct (R (conj B1 B2)).
Qed.

(** X19: [close_project] with the UUID of an open project closes the first open
    project with exactly that UUID, passing [force] on, and reports the name
    and UUID the project had before it was closed. *)
Theorem close_project_by_uuid
        (w : W) (uuid : string) (force : bool) (p : ModelProject) :
  uuid <> "" ->
  In p (ModelProject_all w) ->
  project_uuid p w = uuid ->
  exists target before after,
    ModelProject_all w = (before ++ target :: after)%list
    /\ project_uuid target w = uuid
    /\ (forall x, In x before -> project_uuid x w <> uuid)
    /\ close_project (Some uuid) force w
       = match close target force w with
         | (Ok _, w') =>
             (Ok ("Closed project: " ++ or_untitled (project_name target w)
                  ++ " (UUID: " ++ uuid ++ ")"), w')
         | (Throw msg, w') => (Throw msg, w')
         end.
Proof.
  intros N I U.
  destruct (find_first uuid w _ p I U) as [q [before [after [F [A [Q B]]]]]].
  exists q, before, after. repeat split; auto.
  rewrite (close_project_by_uuid_steps _ _ _ N).
  unfold find_by_uuid. rewrite F, Q.
  destruct (ModelProject_all w); [destruct before; discriminate A | reflexivity].
Qed.

(** X20: without a UUID, and likewise with the empty string for one,
    [close_project] targets the active project: it closes it when there is
    one, and fails without touching the host when there is none. *)
Theorem close_project_without_uuid (w : W) (force : bool) :
  close_project (Some "") force w = close_project None force w
  /\ (Project w = None -> exists msg, close_project None force w = (Throw msg, w))
  /\ (forall a, Project w = Some a -> ModelProject_all w <> [] ->
                close_project None force w
                = match close a force w with
                  | (Ok _, w') =>
                      (Ok ("Closed project: " ++ or_untitled (project_name a w)
                           ++ " (UUID: " ++ project_uuid a w ++ ")"), w')
                  | (Throw msg, w') => (Throw msg, w')
                  end).
Proof.
  unfold close_project, bind, read, throw, ret. repeat split.
  - intros P. destruct (ModelProject_all w); [eauto|]. rewrite P. eauto.
  - intros a P N. destruct (ModelProject_all w); [congruence|]. rewrite P.
    destruct (close a force w) as [[[]|msg] w']; reflexivity.
Qed.

Lemma prefix_app_cancel (a b c : string) : prefix (a ++ b) (a ++ c) = prefix b c.
Proof.
  induction a as [|x a IH]; simpl; [reflexivity|].
  destruct (ascii_dec x x); [exact IH | congruence].
Qed.

(** X21: [list_open_projects] only reads: it never throws and never changes the
    host.  Its listing has one line per open project, and the line of a
    project carries the arrow right after its number exactly when that
    project is the active one. *)
Theorem listing_is_read_only_and_marks_active (w : W) :
  (exists text, list_open_projects w = (Ok text, w))
  /\ List.length (projectList w) = List.length (ModelProject_all w)
  /\ (forall index proj,
         prefix (string_of_nat (index + 1) ++ ". " ++ active_marker)
                (project_line w index proj) = true
         <-> Project w = Some proj).
Proof.
  repeat split.
  - unfold list_open_projects. destruct (ModelProject_all w); eauto.
  - apply map_indexed_length.
  - unfold project_line. rewrite !prefix_app_cancel.
    destruct (Project w) as [a|]; [|discriminate].
    destruct (Nat.eqb proj a) eqn:E.
    + apply Nat.eqb_eq in E. now subst.
    + discriminate.
  - intros P. unfold project_line. rewrite !prefix_app_cancel.
    rewrite P, Nat.eqb_refl. apply prefix_append.
Qed.

End ToolFacts.

Lemma open_project_untouched_on_early_failure_witness :
  exists msg, open_project "models/missing.json" FakeHost.w0 = (Throw msg, FakeHost.w0).
Proof.
  apply (open_project_untouched_on_early_failure FakeHost.w0 "models/missing.json").
  left. reflexivity.
Defined.

Lemma open_project_creates_then_parses_witness :
  FakeHost.opened (snd (open_project "models/list.json" FakeExport.w1)) = [0; 1; 2]
  /\ fst (open_project "models/list.json" FakeExport.w1) = Throw "Invalid model file".
Proof.
  rewrite (open_project_creates_then_parses FakeExport.w1 "models/list.json" "[]" File
             (JArray []) generic_binding) by reflexivity.
  split; reflexivity.
Defined.

Lemma null_document_rejected_witness :
  open_project "models/null.json" FakeExport.w1
  = (Throw (TypeError_null "meta"), FakeExport.w1).
Proof.
  destruct (null_document_rejected FakeExport.w1 "models/null.json" "null" File)
    as [O _]; [reflexivity | reflexivity | apply O; reflexivity].
Defined.

Lemma batch_of_unparseable_files_witness :
  open_files ["models/b.json"] ([], []) FakeHost.w0
  = (Ok ([], ["Failed to parse: models/b.json"]), FakeHost.w0).
Proof.
  apply (batch_of_unparseable_files FakeHost.w0 ["models/b.json"]).
  intros f [<- | []]. exists "not json". split; reflexivity.
Defined.

Lemma folder_opener_nothing_to_open_witness :
  open_projects_from_folder FakeHost.simple_join "models" true (Some [".txt2"]) FakeHost.w0
  = (Ok ("No project files found in: " ++ "models"), FakeHost.w0).
Proof.
  apply (proj2 (proj2 (folder_opener_nothing_to_open FakeHost.w0 FakeHost.simple_join
                         "models" true (Some [".txt2"])))
           [ ("a.geo.json", File); ("b.json", File); ("c.bbmodel", File);
             ("notes.txt", File); ("sub", Dir [ ("d.json", File) ]) ]);
    [reflexivity|].
  intros name full L.
  destruct (accepted [".txt2"] name) eqn:A; [|reflexivity].
  assert (I : In full (scanDirectory FakeHost.simple_join true [".txt2"] "models"
                         [ ("a.geo.json", File); ("b.json", File); ("c.bbmodel", File);
                           ("notes.txt", File); ("sub", Dir [ ("d.json", File) ]) ] []))
    by (eapply located_discovered; eauto).
  destruct I.
Defined.

Lemma switch_project_by_uuid_witness :
  exists target, switch_target FakeHost.w0 "3f2a9c1e" = Some target
                 /\ project_uuid target FakeHost.w0 = "3f2a9c1e".
Proof.
  destruct (switch_project_by_uuid FakeHost.w0 "3f2a9c1e" 0)
    as [target [_ [_ [T [_ [U _]]]]]].
  - reflexivity.
  - intros index E. injection E as <-. simpl. lia.
  - simpl. auto.
  - reflexivity.
  - exists target. split; assumption.
Defined.

Lemma close_project_by_uuid_witness :
  exists target, project_uuid target FakeHost.w0 = "1b81d77a"
                 /\ fst (close_project (Some "1b81d77a") true FakeHost.w0)
                    = fst (match close target true FakeHost.w0 with
                           | (Ok _, w') =>
                               (Ok ("Closed project: "
                                    ++ or_untitled (project_name target FakeHost.w0)
                                    ++ " (UUID: " ++ "1b81d77a" ++ ")"), w')
                           | (Throw msg, w') => (Throw msg, w')
                           end).
Proof.
  destruct (close_project_by_uuid FakeHost.w0 "1b81d77a" true 1)
    as [target [_ [_ [_ [U [_ C]]]]]].
  - discriminate.
  - simpl. auto.
  - reflexivity.
  - exists target. split; [exact U | now rewrite C].
Defined.

Lemma close_project_without_uuid_witness :
  fst (close_project None false FakeHost.w0)
  = Ok "Closed project: Untitled (UUID: 1b81d77a)".
Proof.
  rewrite (proj2 (proj2 (close_project_without_uuid FakeHost.w0 false)) 1);
    [reflexivity | reflexivity | discriminate].
Defined.

Lemma listing_is_read_only_and_marks_active_witness :
  prefix (string_of_nat (1 + 1) ++ ". " ++ active_marker)
         (project_line FakeHost.w0 1 1) = true.
Proof.
  apply (proj2 (proj2 (listing_is_read_only_and_marks_active FakeHost.w0)) 1 1).
  reflexivity.
Defined.

(* ================================================================== *)
(** * Further properties of the export tools *)
(* ================================================================== *)

Lemma length_append (a b : string) :
  String.length (a ++ b) = String.length a + String.length b.
Proof. induction a as [|c a IH]; simpl; [reflexivity | now rewrite IH]. Qed.

Lemma prefix_split (p s : string) :
  prefix p s = true -> exists b, s = p ++ b.
Proof.
  revert s. induction p as [|c p IH]; intros s E.
  - exists s. reflexivity.
  - destruct s as [|d s]; [discriminate E|]. simpl in E.
    destruct (ascii_dec c d) as [<-|]; [|discriminate E].
    destruct (IH s E) as [b ->]. exists b. reflexivity.
Qed.

Lemma drop_append (p b : string) : drop (String.length p) (p ++ b) = b.
Proof. induction p as [|c p IH]; simpl; [now destruct b | exact IH]. Qed.

Lemma endsWith_app_r (a b x : string) :
  endsWith b x = true -> endsWith (a ++ b) x = true.
Proof.
  intros E. induction a as [|c a IH]; simpl; [exact E|].
  rewrite IH. apply orb_true_r.
Qed.

(** A suffix no longer than the second part is a suffix of the whole
    exactly when it is one of that part. *)
Lemma endsWith_app_long (a t x : string) :
  String.length x <= String.length t ->
  endsWith (a ++ t) x = endsWith t x.
Proof.
  intros L. induction a as [|c a IH]; [reflexivity|].
  cbn [append endsWith]. rewrite IH.
  destruct (String.eqb (String c (a ++ t)) x) eqn:E; [|reflexivity].
  apply String.eqb_eq in E. apply (f_equal String.length) in E.
  simpl in E. rewrite length_append in E. lia.
Qed.

(** Where [replace] acts: at the first occurrence of the pattern. *)
Lemma replace_first_occurrence (pat rep s : string) :
  (exists a b, s = a ++ pat ++ b) ->
  exists a b,
    s = a ++ pat ++ b
    /\ replace s pat rep = a ++ rep ++ b
    /\ (forall a' b', s = a' ++ pat ++ b' -> String.length a <= String.length a').
Proof.
  induction s as [|c r IH]; intros O.
  - destruct O as [a [b E]]. destruct a; [|discriminate E]. simpl in E.
    destruct pat; [|discriminate E]. simpl in E. subst b.
    exists "", "". repeat split. simpl. intros; lia.
  - cbn [replace]. destruct (prefix pat (String c r)) eqn:P.
    + destruct (prefix_split _ _ P) as [b E].
      exists "", b. rewrite E, drop_append.
      repeat split. simpl. intros; lia.
    + destruct O as [a [b E]].
      destruct a as [|c' a].
      { simpl in E. rewrite E in P.
        assert (Q : prefix pat (pat ++ b) = true) by apply prefix_append.
        congruence. }
      simpl in E. injection E as <- E.
      destruct (IH (ex_intro _ a (ex_intro _ b E))) as [a0 [b0 [E0 [R0 M0]]]].
      exists (String c a0), b0. repeat split.
      * simpl. now rewrite <- E0.
      * simpl. now rewrite R0.
      * intros a' b' E'. destruct a' as [|c'' a'].
        { simpl in E'. rewrite E' in P.
          assert (Q : prefix pat (pat ++ b') = true) by apply prefix_append.
          congruence. }
        simpl in E'. injection E' as _ E'. simpl. apply le_n_S. eauto.
Qed.

(** X22: the cases [export_geo_json] gets right, and only those: for a path
    ending in [.json] but not in [.geo.json], the normalised target ends in
    [.geo.json] exactly when the final [.json] is the only occurrence of
    [.json] in the path. *)
Theorem geo_json_path_correct_iff (path : string) :
  endsWith path ".json" = true ->
  endsWith path ".geo.json" = false ->
  endsWith (ExportTools.geo_json_path path) ".geo.json" = true
  <-> (forall a b, path = a ++ ".json" ++ b -> b = "").
Proof.
  intros J G. unfold ExportTools.geo_json_path. rewrite G, J.
  destruct (endsWith_split _ _ J) as [pre P].
  destruct (replace_first_occurrence ".json" ".geo.json" path) as [a [b [E [R M]]]].
  { exists pre, "". exact P. }
  rewrite R. split.
  - intros X a' b' E'.
    assert (B : b = "").
    { destruct b as [|x b]; [reflexivity|].
      rewrite endsWith_app_long in X by (simpl; lia).
      cbn in X.
      assert (Y : endsWith (String x b) ".geo.json" = true) by exact X.
      rewrite E, <- append_assoc_string in G.
      rewrite (endsWith_app_r _ _ _ Y) in G. discriminate G. }
    subst b. specialize (M a' b' E').
    apply (f_equal String.length) in E, E'.
    rewrite !length_append in E, E'. simpl in E, E'.
    destruct b'; [reflexivity | simpl in E'; lia].
  - intros U. rewrite (U a b E). apply endsWith_app.
Qed.

Lemma geo_json_path_correct_iff_witness :
  endsWith (ExportTools.geo_json_path "out/model.json") ".geo.json" = true
  <-> (forall a b, "out/model.json" = a ++ ".json" ++ b -> b = "").
Proof.
  apply (geo_json_path_correct_iff "out/model.json"); reflexivity.
Defined.

(** X23: whatever the path, the file is written under a name ending in
    [.json]. *)
Theorem geo_json_path_ends_in_json (path : string) :
  endsWith (ExportTools.geo_json_path path) ".json" = true.
Proof.
  unfold ExportTools.geo_json_path.
  destruct (endsWith path ".geo.json") eqn:G.
  { now apply endsWith_geo_json_json. }
  destruct (endsWith path ".json") eqn:J.
  2:{ apply endsWith_geo_json_json, endsWith_app. }
  destruct (endsWith_split _ _ J) as [pre P].
  destruct (replace_first_occurrence ".json" ".geo.json" path) as [a [b [E [R _]]]].
  { exists pre, "". exact P. }
  rewrite R. destruct b as [|x b].
  - apply endsWith_geo_json_json, endsWith_app.
  - rewrite E in J. rewrite endsWith_app_long in J by (simpl; lia).
    cbn in J.
    assert (Y : endsWith (String x b) ".json" = true) by exact J.
    rewrite <- append_assoc_string. now apply endsWith_app_r.
Qed.

Section ExportFacts.
Import ExportHost ExportHandlers.
Context {W : Type} `{ExportAPI W}.

(** X25: without an open project or without the Bedrock codec, both export tools
    fail with the same message before anything runs: the model is not
    compiled, no directory is made and no file is written. *)
Theorem export_tools_guarded (w : W) (path : string) (pretty : bool) :
  project_open w = false \/ bedrock_codec w = false ->
  exists msg,
    (msg = no_project \/ msg = no_codec)
    /\ to_geo_json pretty w = (Throw msg, w)
    /\ export_geo_json path pretty w = (Throw msg, w).
Proof.
  intros G. unfold to_geo_json, export_geo_json, bind, read, throw.
  destruct (project_open w); simpl.
  - destruct G as [D | C]; [discriminate D|]. rewrite C. simpl.
    exists no_codec. auto.
  - exists no_project. auto.
Qed.

(** X26: a falsy result of [compile()] (nothing, [null], [false], [0] or the
    empty string) makes [export_geo_json] fail after compiling, without
    making a directory or writing a file; [to_geo_json] fails alike. *)
Theorem export_rejects_falsy_compile
        (w w1 : W) (path : string) (pretty : bool) (geoJson : option json) :
  project_open w = true -> bedrock_codec w = true ->
  bedrock_compile w = (Ok geoJson, w1) ->
  truthy geoJson = false ->
  export_geo_json path pretty w = (Throw compile_failed, w1)
  /\ (read_Format w = Ok tt -> to_geo_json pretty w = (Throw compile_failed, w1)).
Proof.
  intros P C B F. unfold to_geo_json, export_geo_json, bind, read, eval, throw.
  rewrite P; simpl; rewrite C; simpl. split.
  - rewrite B; simpl. rewrite F. reflexivity.
  - intros ->. rewrite B; simpl. rewrite F. reflexivity.
Qed.

(** X27: [export_geo_json] writes exactly the text [to_geo_json] returns: when
    [to_geo_json] succeeds, the export goes on from the same host state,
    makes the directory of the normalised path if it is missing and writes
    that text there. *)
Theorem export_writes_what_to_geo_json_returns
        (w w1 : W) (path text : string) (pretty : bool) :
  to_geo_json pretty w = (Ok text, w1) ->
  export_geo_json path pretty w = write_export path text w1.
Proof.
  unfold to_geo_json, export_geo_json, write_export, bind, read, eval, throw, ret.
  destruct (project_open w); [|discriminate]. simpl.
  destruct (bedrock_codec w); [|discriminate]. simpl.
  destruct (read_Format w) as [[]|m]; [|discriminate].
  destruct (bedrock_compile w) as [[geoJson|m] w2]; [|discriminate].
  destruct (truthy geoJson); [|discriminate]. simpl.
  destruct geoJson as [v|]; [|discriminate].
  destruct v; try (intros E; injection E as <- <-; reflexivity).
  destruct pretty; [|intros E; injection E as <- <-; reflexivity].
  destruct (parse_text s) as [parsed|m]; [|discriminate].
  intros E; injection E as <- <-; reflexivity.
Qed.

(** X28: the compact form passes the compiled text on untouched: with
    [pretty = false] a non-empty text from [compile()] is written and
    returned as it is, without being parsed, while with [pretty = true] a
    text that is not JSON makes both tools throw and nothing is written. *)
Theorem compact_export_is_verbatim
        (w w1 : W) (path text : string) :
  project_open w = true -> bedrock_codec w = true ->
  bedrock_compile w = (Ok (Some (JString text)), w1) ->
  text <> "" ->
  export_geo_json path false w = write_export path text w1
  /\ (read_Format w = Ok tt -> to_geo_json false w = (Ok text, w1))
  /\ (forall msg, parse_text text = Throw msg ->
                  export_geo_json path true w = (Throw msg, w1)).
Proof.
  intros P C B N. apply String.eqb_neq in N.
  unfold to_geo_json, export_geo_json, write_export, bind, read, eval, throw, ret.
  rewrite P; simpl; rewrite C; simpl. repeat split.
  - rewrite B; simpl. rewrite N. reflexivity.
  - intros ->. rewrite B; simpl. rewrite N. reflexivity.
  - intros msg E. rewrite B; simpl. rewrite N; simpl. rewrite E. reflexivity.
Qed.

End ExportFacts.

Lemma export_tools_guarded_witness :
  exists msg,
    ExportHandlers.export_geo_json "out/model" true
      {| FakeExport.opened := false; FakeExport.bedrock := true;
         FakeExport.compiled := None; FakeExport.dirs := []; FakeExport.written := [] |}
    = (Throw msg,
       {| FakeExport.opened := false; FakeExport.bedrock := true;
          FakeExport.compiled := None; FakeExport.dirs := []; FakeExport.written := [] |}).
Proof.
  destruct (export_tools_guarded
              {| FakeExport.opened := false; FakeExport.bedrock := true;
                 FakeExport.compiled := None; FakeExport.dirs := [];
                 FakeExport.written := [] |} "out/model" true)
    as [msg [_ [_ E]]].
  - left. reflexivity.
  - exists msg. exact E.
Defined.

Lemma export_rejects_falsy_compile_witness :
  ExportHandlers.export_geo_json "out/model" false
    {| FakeExport.opened := true; FakeExport.bedrock := true;
       FakeExport.compiled := Some (JString ""); FakeExport.dirs := [];
       FakeExport.written := [] |}
  = (Throw ExportHandlers.compile_failed,
     {| FakeExport.opened := true; FakeExport.bedrock := true;
        FakeExport.compiled := Some (JString ""); FakeExport.dirs := [];
        FakeExport.written := [] |}).
Proof.
  apply (export_rejects_falsy_compile
           {| FakeExport.opened := true; FakeExport.bedrock := true;
              FakeExport.compiled := Some (JString ""); FakeExport.dirs := [];
              FakeExport.written := [] |} _ "out/model" false (Some (JString "")));
    reflexivity.
Defined.

Lemma export_writes_what_to_geo_json_returns_witness :
  ExportHandlers.export_geo_json "out/model.json" true FakeExport.e0
  = ExportHandlers.write_export "out/model.json" "{}" FakeExport.e0.
Proof.
  apply (export_writes_what_to_geo_json_returns FakeExport.e0 FakeExport.e0
           "out/model.json" "{}" true).
  reflexivity.
Defined.

Lemma compact_export_is_verbatim_witness :
  ExportHandlers.export_geo_json "out/model" false FakeExport.e0
  = ExportHandlers.write_export "out/model" "{}" FakeExport.e0.
Proof.
  apply (compact_export_is_verbatim FakeExport.e0 FakeExport.e0 "out/model" "{}");
    [reflexivity | reflexivity | reflexivity | discriminate].
Defined.

Lemma geo_json_path_kept_or_appended_witness :
  ExportTools.geo_json_path "out/model" = "out/model" ++ ".geo.json"
  /\ endsWith (ExportTools.geo_json_path "out/model") ".geo.json" = true.
Proof.
  apply (proj2 (geo_json_path_kept_or_appended "out/model")). reflexivity.
Defined.

(* ================================================================== *)
(** * What decides for Bedrock, and what an identifier is read as *)
(* ================================================================== *)

(** X6: in [open_project] the path never decides for the Bedrock binding: the
    extension it compares with [".geo.json"] is a last dot segment, so the
    Bedrock binding is only ever chosen for a content with a geometry
    marker.  The batch opener also chooses it for a path ending in
    [.geo.json]. *)
Theorem open_project_bedrock_only_by_content
        (optifine : bool) (path : string) (parsed : json) :
  (resolve_open_project optifine path parsed = Ok bedrock_binding ->
   geometry_marker parsed = Ok true)
  /\ (resolve_from_folder optifine path parsed = Ok (Resolved bedrock_binding) ->
      endsWith path ".geo.json" = true \/ geometry_marker parsed = Ok true).
Proof.
  unfold resolve_open_project, resolve_from_folder.
  rewrite extname_never_geo_json.
  destruct (model_format_tag parsed) as [tag|m],
           (geometry_marker parsed) as [[|]|m'],
           (block_model_marker parsed) as [j|m''];
    cbn [rbind]; split; auto;
    split_ifs; intros E; try discriminate E; auto.
Qed.

Lemma open_project_bedrock_only_by_content_witness :
  geometry_marker (JObject [("format_version", JString "1.12.0")]) = Ok true.
Proof.
  apply (proj1 (open_project_bedrock_only_by_content false "model.geo.json"
                  (JObject [("format_version", JString "1.12.0")]))).
  reflexivity.
Defined.

Lemma digits_aux_append (fuel n : nat) (acc rest : string) :
  digits_aux fuel n acc ++ rest = digits_aux fuel n (acc ++ rest).
Proof.
  revert n acc. induction fuel as [|fuel IH]; intros n acc; cbn [digits_aux].
  - reflexivity.
  - destruct (n / 10 =? 0)%nat; [reflexivity|]. now rewrite IH.
Qed.

(** [parseInt] stops at the first character that is not a digit. *)
Lemma parseInt_leading_number (n : nat) (rest : string) :
  (forall c r, rest = String c r -> digit_of c = None) ->
  parseInt (string_of_nat n ++ rest) = Some (Z.of_nat n).
Proof.
  intros D. unfold string_of_nat. rewrite digits_aux_append. simpl append.
  destruct (digits_aux_head n n rest) as [d [r [L E]]].
  pose proof (read_digits_aux n n rest (le_n n)) as R.
  rewrite E in *. rewrite (parseInt_leading_digit d r L), R.
  destruct rest as [|c rest]; [reflexivity|].
  cbn [read_digits]. now rewrite (D c rest eq_refl).
Qed.

(** X18: the index is tried first and only the leading digits of the identifier
    count: an identifier made of the decimal notation of an open position
    [N] followed by anything that does not start with a digit targets the
    project at position [N], also when the identifier is the UUID of another
    open project. *)
Theorem switch_project_index_wins
        {W : Type} `{API W} (w : W) (N : nat) (rest : string) :
  1 <= N <= List.length (ModelProject_all w) ->
  (forall c r, rest = String c r -> digit_of c = None) ->
  switch_target w (string_of_nat N ++ rest) = nth_error (ModelProject_all w) (N - 1).
Proof.
  intros [L1 L2] D. unfold switch_target. rewrite (parseInt_leading_number N rest D).
  replace ((1 <=? Z.of_nat N) && (Z.of_nat N <=? Z.of_nat (List.length (ModelProject_all w))))%Z
    with true by (symmetry; apply andb_true_iff; split; apply Z.leb_le; lia).
  now replace (Z.to_nat (Z.of_nat N - 1)) with (N - 1) by lia.
Qed.

Lemma switch_project_index_wins_witness :
  switch_target FakeHost.w0 (string_of_nat 1 ++ "b81d77a") = Some 0
  /\ project_uuid 1 FakeHost.w0 = string_of_nat 1 ++ "b81d77a".
Proof.
  split; [|reflexivity].
  rewrite (switch_project_index_wins FakeHost.w0 1 "b81d77a").
  - reflexivity.
  - simpl. lia.
  - intros c r E. injection E as <- _. reflexivity.
Defined.

